(** * PNG to SVG converter: a shallow embedding of [converter.py]

    The program is a pipeline over three external libraries (PIL, rembg,
    vtracer) and the filesystem.  The embedding keeps the control flow of
    [preprocess_image], [convert_to_svg] and [main] as written, threads an
    explicit world (filesystem, output streams, trace of library calls)
    through a state-and-exception monad, and takes the pixel-level and
    tracing algorithms of the libraries as an interface ([Libs]). *)

From Stdlib Require Import ZArith QArith Ascii String List Lia.
From stdpp Require Import gmap strings.

Local Open Scope string_scope.
Local Open Scope list_scope.
Local Open Scope Z_scope.

(** ** Python string primitives used by the program *)

Module Str.

(** [s[n:]] and [s[:n]] for a non-negative index [n]. *)
Fixpoint drop (n : nat) (s : string) : string :=
  match n, s with
  | O, _ => s
  | S _, EmptyString => EmptyString
  | S n', String _ s' => drop n' s'
  end.

Fixpoint take (n : nat) (s : string) : string :=
  match n, s with
  | O, _ => EmptyString
  | S _, EmptyString => EmptyString
  | S n', String c s' => String c (take n' s')
  end.

(** [s.startswith(p)] and [s.endswith(p)]. *)
Definition startswith (s p : string) : bool := String.prefix p s.

Definition endswith (s p : string) : bool :=
  (String.length p <=? String.length s)%nat
  && String.eqb (drop (String.length s - String.length p) s) p.

(** [p in s]: substring test. *)
Fixpoint contains (s p : string) : bool :=
  startswith s p ||
  match s with
  | EmptyString => false
  | String _ s' => contains s' p
  end.

(** [s.replace(old, new)] for a non-empty [old]: every non-overlapping
    occurrence of [old], scanning from the left, is replaced by [new].
    [skip] counts the characters of a matched occurrence that are still
    to be consumed. *)
Fixpoint replace_from (old new : string) (skip : nat) (s : string) : string :=
  match s with
  | EmptyString => EmptyString
  | String c s' =>
      match skip with
      | S k => replace_from old new k s'
      | O =>
          if startswith s old
          then new +:+ replace_from old new (String.length old - 1) s'
          else String c (replace_from old new O s')
      end
  end.

(** With an empty [old] Python inserts [new] before every character and
    at the end. *)
Fixpoint intersperse (new : string) (s : string) : string :=
  match s with
  | EmptyString => new
  | String c s' => new +:+ String c (intersperse new s')
  end.

Definition replace (s old new : string) : string :=
  match old with
  | EmptyString => intersperse new s
  | String _ _ => replace_from old new O s
  end.

(** [s.rfind(c)] for a one-character needle: the index of the last
    occurrence, or [-1]. *)
Fixpoint rfind_from (c : ascii) (s : string) (i : Z) (last : Z) : Z :=
  match s with
  | EmptyString => last
  | String a s' => rfind_from c s' (i + 1) (if Ascii.eqb a c then i else last)
  end.

Definition rfind (s : string) (c : ascii) : Z := rfind_from c s 0 (-1).

(** Truthiness of a string, and of an optional string ([None] or [str]). *)
Definition truthy (s : string) : bool := negb (String.eqb s "").

Definition truthy_opt (o : option string) : bool :=
  match o with
  | None => false
  | Some s => truthy s
  end.

End Str.

(** ** [os.path] (posixpath) *)

Module OsPath.

Definition sep : ascii := "/"%char.
Definition extsep : ascii := "."%char.

(** [i = p.rfind(sep) + 1; return p[i:]] *)
Definition basename (p : string) : string :=
  let i := Str.rfind p sep + 1 in
  Str.drop (Z.to_nat i) p.

(** [head.rstrip(sep)] *)
Fixpoint rstrip_sep (s : string) : string :=
  match s with
  | EmptyString => EmptyString
  | String c s' =>
      match rstrip_sep s' with
      | EmptyString => if Ascii.eqb c sep then EmptyString else String c EmptyString
      | r => String c r
      end
  end.

(** [i = p.rfind(sep) + 1; head = p[:i];
    if head and head != sep*len(head): head = head.rstrip(sep)] *)
Definition dirname (p : string) : string :=
  let i := Str.rfind p sep + 1 in
  let head := Str.take (Z.to_nat i) p in
  match rstrip_sep head with
  | EmptyString => head
  | stripped => stripped
  end.

(** The loop of [genericpath._splitext] that skips leading dots:
    [n] iterations remain, [true] when a non-dot character is met. *)
Fixpoint splitext_scan (p : string) (filenameIndex : nat) (n : nat) : bool :=
  match n with
  | O => false
  | S n' =>
      if negb (String.eqb (String.substring filenameIndex 1 p) (String extsep EmptyString))
      then true
      else splitext_scan p (S filenameIndex) n'
  end.

Definition splitext (p : string) : string * string :=
  let sepIndex := Str.rfind p sep in
  let dotIndex := Str.rfind p extsep in
  if (sepIndex <? dotIndex) &&
     splitext_scan p (Z.to_nat (sepIndex + 1)) (Z.to_nat (dotIndex - (sepIndex + 1)))
  then (Str.take (Z.to_nat dotIndex) p, Str.drop (Z.to_nat dotIndex) p)
  else (p, EmptyString).

(** [os.path.join(a, b)] with two components. *)
Definition join (a b : string) : string :=
  if Str.startswith b "/" then b
  else if negb (Str.truthy a) || Str.endswith a "/" then a +:+ b
  else a +:+ "/" +:+ b.

End OsPath.

(** ** Exceptions, images and the library interface *)

(** Python exceptions: the ones derived from [Exception] carry their class
    name and message; [SystemExit] is raised by [sys.exit] and is not an
    [Exception], and neither is [PanicException], which a Rust extension
    module such as vtracer raises when it cannot go on. *)
Inductive exn : Type :=
| Exn (cls : string) (msg : string)
| SystemExit (code : Z)
| PanicException (msg : string).

Definition is_Exception (e : exn) : bool :=
  match e with
  | Exn _ _ => true
  | SystemExit _ => false
  | PanicException _ => false
  end.

(** [str(e)] *)
Definition exn_str (e : exn) : string :=
  match e with
  | Exn _ msg => msg
  | SystemExit _ => ""
  | PanicException msg => msg
  end.

(** A decoded raster image: its mode and its pixel buffer. *)
Record Image : Type := mkImage {
  mode : string;
  size : Z * Z;
  pixels : list Z;
}.

(** The calls the program makes on a PIL image. *)
Inductive ImageFilter : Type :=
| GaussianBlur (radius : Q)
| UnsharpMask (radius percent threshold : Z)
| SHARPEN.

Inductive ImageEnhance : Type :=
| Contrast
| Color.

Inductive pil_op : Type :=
| Convert (mode : string)                      (* img.convert(mode) *)
| Filter (f : ImageFilter)                     (* img.filter(f) *)
| Enhance (k : ImageEnhance) (factor : Q).     (* ImageEnhance.k(img).enhance(factor) *)

(** The keyword arguments handed to [vtracer.convert_image_to_svg_py]. *)
Record Params : Type := mkParams {
  colormode : string;
  hierarchical : string;
  tracing_mode : string;
  filter_speckle : Z;
  color_precision : Z;
  layer_difference : Z;
  corner_threshold : Z;
  length_threshold : Q;
  max_iterations : Z;
  splice_threshold : Z;
  path_precision : Z;
}.

(** Filesystem: a path names a regular file with its bytes, or a
    directory.  Paths are keys as written: two spellings of one file
    ([logo.png] and [./logo.png]) are two keys, and there are no links.
    Statements that need two paths to name different files therefore ask
    for different last components, not for different strings. *)
Inductive node : Type :=
| File (data : string)
| Dir.

(** What encoding an image for a path can do: produce the bytes, or raise,
    possibly after the target file was opened and partly written. *)
Inductive encode_result : Type :=
| Encoded (data : string)
| EncodeFailed (e : exn) (partial : option string).

(** The external collaborators: PIL's codecs and pixel operations, the
    background remover, the tracing engine, and directory creation by the
    operating system.  Any of them may raise. *)
Class Libs : Type := {
  pil_decode : string -> exn + Image;
  pil_encode : Image -> string -> encode_result;
  pil_apply : pil_op -> Image -> exn + Image;
  rembg_remove : Image -> exn + Image;
  vtracer_trace : string -> Params -> exn + string;
  sys_makedirs : string -> bool -> gmap string node -> exn + gmap string node;
}.

(** ** The world and the monad *)

(** Calls into the libraries and mutating calls on the filesystem, in the
    order they are made. *)
Inductive event : Type :=
| EvMakedirs (path : string) (exist_ok : bool)
| EvOpen (path : string)
| EvRembg (img : Image)
| EvPil (op : pil_op) (img : Image)
| EvSave (img : Image) (path : string)
| EvVtracer (src out : string) (p : Params)
| EvRemove (path : string).

Record World : Type := mkWorld {
  fs : gmap string node;
  stdout : list string;
  stderr : list string;
  trace : list event;
}.

(** A path exists when it names a file or a directory; the empty path
    never does. *)
Definition path_exists (f : gmap string node) (p : string) : bool :=
  Str.truthy p && match f !! p with Some _ => true | None => false end.

Definition is_file (f : gmap string node) (p : string) : bool :=
  match f !! p with
  | Some (File _) => true
  | _ => false
  end.

(** A file can be created at [p]: the directory part of [p] is empty (the
    current directory) or names a directory. *)
Definition parent_ready (f : gmap string node) (p : string) : bool :=
  negb (Str.truthy (OsPath.dirname p))
  || match f !! OsPath.dirname p with
     | Some Dir => true
     | _ => false
     end.

Definition set_fs (f : gmap string node) (w : World) : World :=
  mkWorld f (stdout w) (stderr w) (trace w).

Definition log (ev : event) (w : World) : World :=
  mkWorld (fs w) (stdout w) (stderr w) (trace w ++ [ev]).

(** Computations over a state [Σ] that return a value or raise. *)
Definition M (Σ A : Type) : Type := Σ -> Σ * (exn + A).

Definition ret {Σ A} (a : A) : M Σ A := fun s => (s, inr a).

Definition raise {Σ A} (e : exn) : M Σ A := fun s => (s, inl e).

Definition bind {Σ A B} (m : M Σ A) (k : A -> M Σ B) : M Σ B :=
  fun s =>
    match m s with
    | (s1, inr a) => k a s1
    | (s1, inl e) => (s1, inl e)
    end.

Notation "'let*' x ':=' m 'in' k" := (bind m (fun x => k))
  (at level 10, x name, m at level 200, k at level 200).
Notation "m '>>' k" := (bind m (fun _ => k))
  (at level 100, k at level 200, right associativity).

(** [try: body except Exception as e: handler e] *)
Definition try_except {Σ A} (body : M Σ A) (handler : exn -> M Σ A) : M Σ A :=
  fun s =>
    match body s with
    | (s1, inl e) => if is_Exception e then handler e s1 else (s1, inl e)
    | r => r
    end.

(** [try: body finally: cleanup]: the cleanup runs on every exit of the
    body; an exception raised by the cleanup replaces the body's outcome. *)
Definition try_finally {Σ A} (body : M Σ A) (cleanup : M Σ unit) : M Σ A :=
  fun s =>
    match body s with
    | (s1, r) =>
        match cleanup s1 with
        | (s2, inr _) => (s2, r)
        | (s2, inl e) => (s2, inl e)
        end
    end.

(** Local variables of a function body that its handlers read: a frame
    [F] next to the world. *)
Definition lift {F A} (m : M World A) : M (F * World) A :=
  fun s =>
    match m (snd s) with
    | (w, r) => ((fst s, w), r)
    end.

Definition get_local {F} : M (F * World) F := fun s => (s, inr (fst s)).

Definition set_local {F} (v : F) : M (F * World) unit := fun s => ((v, snd s), inr tt).

Definition with_frame {F A} (init : F) (m : M (F * World) A) : M World A :=
  fun w =>
    match m (init, w) with
    | (s, r) => (snd s, r)
    end.

(** The namespace returned by [parser.parse_args()]; [arg_params] groups
    the tuning options that are handed on to the tracing engine. *)
Record Args : Type := mkArgs {
  arg_input : string;
  arg_output : option string;
  arg_output_dir : option string;
  arg_keep_bg : bool;
  arg_no_enhance : bool;
  arg_ultra_quality : bool;
  arg_params : Params;
}.

(** ** The program *)

Section Program.

Context {L : Libs}.

(** *** Primitives on the world *)

Definition print (line : string) : M World unit :=
  fun w => (mkWorld (fs w) (stdout w ++ [line]) (stderr w) (trace w), inr tt).

(** [print(line, file=sys.stderr)] *)
Definition eprint (line : string) : M World unit :=
  fun w => (mkWorld (fs w) (stdout w) (stderr w ++ [line]) (trace w), inr tt).

(** [sys.exit(code)] *)
Definition sys_exit {A} (code : Z) : M World A := raise (SystemExit code).

(** [os.path.exists(p)] *)
Definition os_path_exists (p : string) : M World bool :=
  fun w => (w, inr (path_exists (fs w) p)).

(** [os.makedirs(p, exist_ok=exist_ok)] *)
Definition os_makedirs (p : string) (exist_ok : bool) : M World unit :=
  fun w =>
    let w := log (EvMakedirs p exist_ok) w in
    match sys_makedirs p exist_ok (fs w) with
    | inr f => (set_fs f w, inr tt)
    | inl e => (w, inl e)
    end.

(** [os.remove(p)]: unlinks a regular file. *)
Definition os_remove (p : string) : M World unit :=
  fun w =>
    let w := log (EvRemove p) w in
    match fs w !! p with
    | Some (File _) => (set_fs (delete p (fs w)) w, inr tt)
    | Some Dir => (w, inl (Exn "IsADirectoryError" p))
    | None => (w, inl (Exn "FileNotFoundError" p))
    end.

(** [Image.open(p)] *)
Definition Image_open (p : string) : M World Image :=
  fun w =>
    let w := log (EvOpen p) w in
    match fs w !! p with
    | Some (File data) => (w, pil_decode data)
    | Some Dir => (w, inl (Exn "IsADirectoryError" p))
    | None => (w, inl (Exn "FileNotFoundError" p))
    end.

(** [img.save(p)]: the encoder may raise before the file is opened
    (an unknown extension), or after, leaving what it wrote so far; opening
    the file fails when its directory is missing or when [p] is a
    directory.  The call is recorded before any of this.  The message of
    an error of the operating system is abridged to the path. *)
Definition Image_save (img : Image) (p : string) : M World unit :=
  fun w =>
    let w := log (EvSave img p) w in
    match pil_encode img p with
    | EncodeFailed e None => (w, inl e)
    | r =>
        if negb (parent_ready (fs w) p)
        then (w, inl (Exn "FileNotFoundError" p))
        else
          match fs w !! p with
          | Some Dir => (w, inl (Exn "IsADirectoryError" p))
          | _ =>
              match r with
              | Encoded data => (set_fs (<[p := File data]> (fs w)) w, inr tt)
              | EncodeFailed e (Some junk) =>
                  (set_fs (<[p := File junk]> (fs w)) w, inl e)
              | EncodeFailed e None => (w, inl e)
              end
          end
    end.

(** [remove(img)] of rembg *)
Definition remove (img : Image) : M World Image :=
  fun w => (log (EvRembg img) w, rembg_remove img).

(** A call on a PIL image. *)
Definition pil (op : pil_op) (img : Image) : M World Image :=
  fun w => (log (EvPil op img) w, pil_apply op img).

(** [vtracer.convert_image_to_svg_py(src, out, **params)]: reads the
    raster file, traces it, writes the SVG file.  A file it cannot read or
    write makes the extension module panic. *)
Definition convert_image_to_svg_py (src out : string) (params : Params) : M World unit :=
  fun w =>
    let w := log (EvVtracer src out params) w in
    match fs w !! src with
    | Some (File data) =>
        match vtracer_trace data params with
        | inr svg =>
            if negb (parent_ready (fs w) out)
            then (w, inl (PanicException out))
            else
              match fs w !! out with
              | Some Dir => (w, inl (PanicException out))
              | _ => (set_fs (<[out := File svg]> (fs w)) w, inr tt)
              end
        | inl e => (w, inl e)
        end
    | Some Dir => (w, inl (PanicException src))
    | None => (w, inl (PanicException src))
    end.

(** *** [preprocess_image] *)

Definition preprocess_image (img : Image) (enhance_edges ultra_quality : bool)
  : M World Image :=
  let* img :=
    (if negb (String.eqb (mode img) "RGBA")
     then pil (Convert "RGBA") img
     else ret img) in
  if enhance_edges then
    if ultra_quality then
      let* img := pil (Filter (GaussianBlur 0.5)) img in
      let* img := pil (Filter (UnsharpMask 2 150 3)) img in
      let* img := pil (Enhance Contrast 1.4) img in
      let* img := pil (Enhance Color 1.1) img in
      ret img
    else
      let* img := pil (Filter SHARPEN) img in
      let* img := pil (Enhance Contrast 1.2) img in
      ret img
  else
    ret img.

(** *** [convert_to_svg] *)

(** [temp_file = input_path.replace('.png', '_temp.png')] *)
Definition temp_file_of (input_path : string) : string :=
  Str.replace input_path ".png" "_temp.png".

(** The first part of the [try] block, lines 119 to 142: open the image,
    remove the background and preprocess as requested, stage the result.
    It yields [processing_file]; the frame holds the local [temp_file]. *)
Definition prepare_processing_file (input_path : string)
    (remove_background enhance_quality ultra_quality : bool)
  : M (option string * World) string :=
  let* img := lift (Image_open input_path) in
  if remove_background then
    lift (print ("Removing background from " +:+ input_path +:+ "...")) >>
    let* img_no_bg := lift (remove img) in
    let* img_no_bg :=
      (if enhance_quality
       then lift (preprocess_image img_no_bg true ultra_quality)
       else ret img_no_bg) in
    let temp_file := temp_file_of input_path in
    set_local (Some temp_file) >>
    lift (Image_save img_no_bg temp_file) >>
    ret temp_file
  else
    if enhance_quality then
      let* img := lift (preprocess_image img false ultra_quality) in
      let temp_file := temp_file_of input_path in
      set_local (Some temp_file) >>
      lift (Image_save img temp_file) >>
      ret temp_file
    else
      ret input_path.

(** The [try] block: the staging above, then lines 144 to 162. *)
Definition convert_try (input_path output_path : string) (remove_background : bool)
    (params : Params) (enhance_quality ultra_quality : bool)
  : M (option string * World) unit :=
  let* processing_file :=
    prepare_processing_file input_path remove_background enhance_quality
      ultra_quality in
  lift (print ("Converting " +:+ processing_file +:+ " to SVG...")) >>
  lift (convert_image_to_svg_py processing_file output_path params) >>
  lift (print ("✓ Successfully converted to " +:+ output_path)).

(** The [except Exception as e] handler. *)
Definition convert_except (e : exn) : M (option string * World) unit :=
  lift (print ("Error during conversion: " +:+ exn_str e)) >>
  raise e.

(** The [finally] block:
    [if temp_file and os.path.exists(temp_file): os.remove(temp_file)] *)
Definition convert_finally : M (option string * World) unit :=
  let* temp_file := get_local in
  match temp_file with
  | Some t =>
      if Str.truthy t then
        let* ex := lift (os_path_exists t) in
        if ex then lift (os_remove t) else ret tt
      else ret tt
  | None => ret tt
  end.

Definition convert_to_svg (input_path output_path : string) (remove_background : bool)
    (params : Params) (enhance_quality ultra_quality : bool) : M World unit :=
  let* ex := os_path_exists input_path in
  if negb ex then
    raise (Exn "FileNotFoundError" ("Input file not found: " +:+ input_path))
  else
    let output_dir := OsPath.dirname output_path in
    (if Str.truthy output_dir then
       let* ex := os_path_exists output_dir in
       if negb ex then os_makedirs output_dir false else ret tt
     else ret tt) >>
    with_frame None
      (try_finally
         (try_except
            (convert_try input_path output_path remove_background params
               enhance_quality ultra_quality)
            convert_except)
         convert_finally).

(** *** [main] *)

(** "Determine output path" *)
Definition resolve_output_path (args : Args) : M World string :=
  let usage_error : M World string :=
    eprint "Error: Either output path or --output-dir must be specified" >>
    sys_exit 1 in
  let from_output : M World string :=
    match arg_output args with
    | Some output => if Str.truthy output then ret output else usage_error
    | None => usage_error
    end in
  match arg_output_dir args with
  | Some output_dir =>
      if Str.truthy output_dir then
        os_makedirs output_dir true >>
        let input_basename := OsPath.basename (arg_input args) in
        let output_filename := fst (OsPath.splitext input_basename) +:+ ".svg" in
        ret (OsPath.join output_dir output_filename)
      else from_output
  | None => from_output
  end.

Definition main (args : Args) : M World unit :=
  let* output_path := resolve_output_path args in
  try_except
    (convert_to_svg (arg_input args) output_path (negb (arg_keep_bg args))
       (arg_params args) (negb (arg_no_enhance args)) (arg_ultra_quality args))
    (fun e => eprint ("Error: " +:+ exn_str e) >> sys_exit 1).

(** The exit status of the process running [main]: 0 on a normal return,
    the code of [sys.exit], 1 on an uncaught exception. *)
Definition exit_status (r : exn + unit) : Z :=
  match r with
  | inr _ => 0
  | inl (SystemExit code) => code
  | inl (Exn _ _) => 1
  | inl (PanicException _) => 1
  end.

End Program.

(** ** Observations on a trace *)

(** The events a run appended to the trace of the world it started in. *)
Definition new_events (w w' : World) : list event :=
  List.skipn (List.length (trace w)) (trace w').

Definition is_rembg (ev : event) : bool :=
  match ev with
  | EvRembg _ => true
  | _ => false
  end.

(** Number of calls of the background remover. *)
Definition rembg_calls (t : list event) : nat :=
  List.length (List.filter is_rembg t).

(** The PIL calls made on images, in order. *)
Fixpoint pil_ops (t : list event) : list pil_op :=
  match t with
  | [] => []
  | EvPil op _ :: t' => op :: pil_ops t'
  | _ :: t' => pil_ops t'
  end.

(** The paths [Image.save] was called on, in order; a call is recorded
    when it is made, whether or not it writes the file. *)
Fixpoint saved_paths (t : list event) : list string :=
  match t with
  | [] => []
  | EvSave _ p :: t' => p :: saved_paths t'
  | _ :: t' => saved_paths t'
  end.

(** The calls made on images, in order: background removal, PIL calls and
    saves. *)
Definition on_image (ev : event) : bool :=
  match ev with
  | EvRembg _ | EvPil _ _ | EvSave _ _ => true
  | _ => false
  end.

Definition image_events (t : list event) : list event := List.filter on_image t.

(** Events that are PIL calls only. *)
Definition pil_only (evs : list event) : Prop :=
  Forall (fun ev => match ev with EvPil _ _ => True | _ => False end) evs.

(** [ext w w' evs]: the run from [w] to [w'] appended [evs]. *)
Definition ext (w w' : World) (evs : list event) : Prop :=
  trace w' = trace w ++ evs.

(** Regular files stay regular files. *)
Definition files_stay (f f' : gmap string node) : Prop :=
  forall q, is_file f q = true -> is_file f' q = true.

(** ** Test doubles for the libraries *)

Module Fake.

Definition decode (data : string) : exn + Image :=
  inr (mkImage "RGB" (1, 1) [Z.of_nat (String.length data)]).

Definition encode (img : Image) (p : string) : encode_result :=
  Encoded ("PNG:" +:+ mode img).

(** Conversion sets the mode; every other call tags the buffer. *)
Definition apply (op : pil_op) (img : Image) : exn + Image :=
  match op with
  | Convert m => inr (mkImage m (size img) (pixels img))
  | Filter _ => inr (mkImage (mode img) (size img) (1 :: pixels img))
  | Enhance _ _ => inr (mkImage (mode img) (size img) (2 :: pixels img))
  end.

Definition rembg (img : Image) : exn + Image :=
  inr (mkImage "RGBA" (size img) (pixels img)).

Definition trace_svg (data : string) (p : Params) : exn + string :=
  inr ("<svg>" +:+ data +:+ "</svg>").

Definition failing_trace_svg (data : string) (p : Params) : exn + string :=
  inl (Exn "RuntimeError" "tracing failed").

Definition makedirs (p : string) (exist_ok : bool) (f : gmap string node)
  : exn + gmap string node :=
  match f !! p with
  | Some Dir => if exist_ok then inr f else inl (Exn "FileExistsError" p)
  | Some (File _) => inl (Exn "FileExistsError" p)
  | None => inr (<[p := Dir]> f)
  end.

Definition libs : Libs :=
  Build_Libs decode encode apply rembg trace_svg makedirs.

(** The same libraries with a tracing engine that always raises. *)
Definition libs_failing_tracer : Libs :=
  Build_Libs decode encode apply rembg failing_trace_svg makedirs.

Definition params : Params :=
  mkParams "color" "stacked" "spline" 12 7 32 60 4.0 10 45 8.

(** A world holding one input file. *)
Definition world_with (p : string) : World :=
  mkWorld {[ p := File "raster" ]} [] [] [].

End Fake.

(** ** Reference behaviour of a chain of PIL calls *)

(** The PIL calls of a chain in order, stopping at the first one that
    raises: the calls made and the outcome. *)
Fixpoint run_chain {L : Libs} (ops : list pil_op) (img : Image)
  : list pil_op * (exn + Image) :=
  match ops with
  | [] => ([], inr img)
  | op :: ops' =>
      match pil_apply op img with
      | inr img' =>
          let (called, r) := run_chain ops' img' in (op :: called, r)
      | inl e => ([op], inl e)
      end
  end.

(** Normalisation to RGBA: a conversion unless the image is RGBA already. *)
Definition norm_ops (img : Image) : list pil_op :=
  if String.eqb (mode img) "RGBA" then [] else [Convert "RGBA"].


(** ** The statements of the specification that are compared with the code *)

(** The staged path in the words of the specification: the [.png] suffix of
    the input path, and only that suffix, replaced by [_temp.png]. *)
Definition staged_path_by_suffix (p : string) : string :=
  if Str.endswith p ".png"
  then Str.take (String.length p - 4) p +:+ "_temp.png"
  else p.

(** A string made of dots only. *)
Fixpoint all_dots (s : string) : bool :=
  match s with
  | EmptyString => true
  | String c s' => Ascii.eqb c OsPath.extsep && all_dots s'
  end.

(** The string without its leading dots. *)
Fixpoint lstrip_dots (s : string) : string :=
  match s with
  | EmptyString => EmptyString
  | String c s' => if Ascii.eqb c OsPath.extsep then lstrip_dots s' else s
  end.

(** The extension of a file name in the words of the documentation of
    [os.path.splitext]: everything from the last dot to the end, ignoring
    leading dots; it may be empty.  [stem] and [ext] split [name] there:
    either [ext] is empty and [name] has no dot after its leading dots, or
    [ext] starts at the last dot of [name] and [stem] is more than dots. *)
Definition splits_at_extension (name stem ext : string) : Prop :=
  name = stem +:+ ext /\
  ((ext = "" /\ Str.contains (lstrip_dots name) "." = false)
   \/
   (Str.startswith ext "." = true /\
    Str.contains (Str.drop 1 ext) "." = false /\
    all_dots stem = false)).

(** "Only contrast adjustment occurs" on the working image: PIL is called,
    and every call is a contrast enhancement. *)
Definition contrast_adjustment_only (ops : list pil_op) : Prop :=
  ops <> [] /\ Forall (fun op => exists factor, op = Enhance Contrast factor) ops.

(** ** Concrete runs *)

Module Run.

(** [converter.py logo.png --output-dir out/] *)
Definition args_output_dir : Args :=
  mkArgs "logo.png" None (Some "out/") false false false Fake.params.

(** [converter.py logo.png] *)
Definition args_no_output : Args :=
  mkArgs "logo.png" None None false false false Fake.params.

(** [logo.png] with background removal and ultra quality, with a tracing
    engine that raises. *)
Definition tracer_raises : World * (exn + unit) :=
  convert_to_svg (L := Fake.libs_failing_tracer) "logo.png" "logo.svg" true
    Fake.params true true (Fake.world_with "logo.png").


(** [logo.png --keep-bg] with the default enhancement. *)
Definition keep_bg_enhanced : World * (exn + unit) :=
  convert_to_svg (L := Fake.libs) "logo.png" "logo.svg" false
    Fake.params true false (Fake.world_with "logo.png").

(** A world without the input file. *)
Definition empty_world : World := mkWorld ∅ [] [] [].

End Run.

(** ** Further observations on runs *)

(** The filesystem [f'] agrees with [f] everywhere but at [p]. *)
Definition unchanged_but (p : string) (f f' : gmap string node) : Prop :=
  forall q, q <> p -> f' !! q = f !! q.

(** The calls of the tracing engine, in order: source, output and the
    parameters handed over. *)
Fixpoint vtracer_calls (t : list event) : list (string * string * Params) :=
  match t with
  | [] => []
  | EvVtracer src out p :: t' => (src, out, p) :: vtracer_calls t'
  | _ :: t' => vtracer_calls t'
  end.

(** The paths [os.remove] was called on, in order. *)
Fixpoint removed_paths (t : list event) : list string :=
  match t with
  | [] => []
  | EvRemove p :: t' => p :: removed_paths t'
  | _ :: t' => removed_paths t'
  end.

(** The directories [os.makedirs] was called on, in order. *)
Fixpoint made_dirs (t : list event) : list string :=
  match t with
  | [] => []
  | EvMakedirs p _ :: t' => p :: made_dirs t'
  | _ :: t' => made_dirs t'
  end.

(** The filter and enhancement calls of [preprocess_image] with
    [enhance_edges] on, as they stand in the source. *)
Definition edge_chain (ultra_quality : bool) : list pil_op :=
  if ultra_quality
  then [Filter (GaussianBlur 0.5); Filter (UnsharpMask 2 150 3);
        Enhance Contrast 1.4; Enhance Color 1.1]
  else [Filter SHARPEN; Enhance Contrast 1.2].

(** The PIL calls [convert_to_svg] has [preprocess_image] make on the
    working image: none without quality enhancement; the normalisation and,
    after a background removal only, the edge chain with it. *)
Definition working_chain (remove_background enhance_quality ultra_quality : bool)
    (img : Image) : list pil_op :=
  if enhance_quality
  then norm_ops img ++ (if remove_background then edge_chain ultra_quality else [])
  else [].

(** The output directory of [output_path] needs no [os.makedirs]: it is
    the current directory or it exists. *)
Definition output_dir_ready (f : gmap string node) (output_path : string) : bool :=
  negb (Str.truthy (OsPath.dirname output_path))
  || path_exists f (OsPath.dirname output_path).

Module Run2.


(** [converter.py missing.png -o out] *)
Definition args_dir_missing_input : Args :=
  mkArgs "missing.png" None (Some "out") false false false Fake.params.

(** [converter.py logo.png logo.svg] in a world holding [logo.png]. *)
Definition default_run : World * (exn + unit) :=
  convert_to_svg (L := Fake.libs) "logo.png" "logo.svg" true
    Fake.params true false (Fake.world_with "logo.png").

(** The output path is the staged path of the input. *)
Definition output_is_staged : World * (exn + unit) :=
  convert_to_svg (L := Fake.libs) "logo.png" "logo_temp.png" true
    Fake.params true false (Fake.world_with "logo.png").


(** The libraries with a decoder that raises. *)
Definition failing_decode (data : string) : exn + Image :=
  inl (Exn "UnidentifiedImageError" "cannot identify image file").

Definition libs_failing_decoder : Libs :=
  Build_Libs failing_decode Fake.encode Fake.apply Fake.rembg Fake.trace_svg
    Fake.makedirs.


(** The world after [os.makedirs("out", exist_ok=True)] in the empty
    world. *)
Definition world_with_out_dir : World :=
  mkWorld {[ "out" := Dir ]} [] [] [EvMakedirs "out" true].

End Run2.

(** * Properties *)

(** ** The string and path primitives on examples *)

Example replace_ex1 : Str.replace "logo.png" ".png" "_temp.png" = "logo_temp.png".
Proof. reflexivity. Qed.
Example replace_ex2 : Str.replace "a.png.png" ".png" "_temp.png" = "a_temp.png_temp.png".
Proof. reflexivity. Qed.
Example replace_ex3 : Str.replace "aaa" "aa" "b" = "ba".
Proof. reflexivity. Qed.
Example replace_ex4 : Str.replace "ab" "" "-" = "-a-b-".
Proof. reflexivity. Qed.
Example basename_ex1 : OsPath.basename "dir/sub/logo.png" = "logo.png".
Proof. reflexivity. Qed.
Example basename_ex2 : OsPath.basename "dir/" = "".
Proof. reflexivity. Qed.
Example dirname_ex1 : OsPath.dirname "dir/sub/logo.png" = "dir/sub".
Proof. reflexivity. Qed.
Example dirname_ex2 : OsPath.dirname "/logo.png" = "/".
Proof. reflexivity. Qed.
Example dirname_ex3 : OsPath.dirname "logo.png" = "".
Proof. reflexivity. Qed.
Example dirname_ex4 : OsPath.dirname "a//b" = "a".
Proof. reflexivity. Qed.
Example splitext_ex1 : OsPath.splitext "logo.png" = ("logo", ".png").
Proof. reflexivity. Qed.
Example splitext_ex2 : OsPath.splitext ".hidden" = (".hidden", "").
Proof. reflexivity. Qed.
Example splitext_ex3 : OsPath.splitext "a.tar.gz" = ("a.tar", ".gz").
Proof. reflexivity. Qed.
Example splitext_ex4 : OsPath.splitext "..x.png" = ("..x", ".png").
Proof. reflexivity. Qed.
Example splitext_ex5 : OsPath.splitext "a.b/c" = ("a.b/c", "").
Proof. reflexivity. Qed.
Example join_ex1 : OsPath.join "out/" "logo.svg" = "out/logo.svg".
Proof. reflexivity. Qed.
Example join_ex2 : OsPath.join "out" "logo.svg" = "out/logo.svg".
Proof. reflexivity. Qed.

(** ** Traces *)

Lemma new_events_of (w w' : World) (evs : list event) :
  trace w' = trace w ++ evs -> new_events w w' = evs.
Proof.
  intros H. unfold new_events. rewrite H.
  rewrite List.skipn_app, List.skipn_all, Nat.sub_diag. reflexivity.
Qed.

Lemma saved_paths_app (a b : list event) :
  saved_paths (a ++ b) = saved_paths a ++ saved_paths b.
Proof.
  induction a as [|ev a IH]; simpl; [reflexivity|].
  destruct ev; simpl; rewrite ?IH; reflexivity.
Qed.

Lemma pil_ops_app (a b : list event) :
  pil_ops (a ++ b) = pil_ops a ++ pil_ops b.
Proof.
  induction a as [|ev a IH]; simpl; [reflexivity|].
  destruct ev; simpl; rewrite ?IH; reflexivity.
Qed.

Lemma rembg_calls_app (a b : list event) :
  rembg_calls (a ++ b) = (rembg_calls a + rembg_calls b)%nat.
Proof. unfold rembg_calls. rewrite List.filter_app, List.length_app. reflexivity. Qed.

Lemma pil_only_saved (evs : list event) : pil_only evs -> saved_paths evs = [].
Proof.
  induction 1 as [|ev evs Hev _ IH]; simpl; [reflexivity|].
  destruct ev; try contradiction. exact IH.
Qed.

Lemma pil_only_rembg (evs : list event) : pil_only evs -> rembg_calls evs = 0%nat.
Proof.
  induction 1 as [|ev evs Hev _ IH]; simpl; [reflexivity|].
  destruct ev; try contradiction. exact IH.
Qed.

Lemma pil_only_app (a b : list event) : pil_only a -> pil_only b -> pil_only (a ++ b).
Proof. unfold pil_only. intros Ha Hb. apply Forall_app. split; assumption. Qed.

Lemma ext_refl (w : World) : ext w w [].
Proof. unfold ext. rewrite List.app_nil_r. reflexivity. Qed.

Lemma ext_trans (w1 w2 w3 : World) (a b : list event) :
  ext w1 w2 a -> ext w2 w3 b -> ext w1 w3 (a ++ b).
Proof. unfold ext. intros H1 H2. rewrite H2, H1, List.app_assoc. reflexivity. Qed.

Lemma files_stay_refl (f : gmap string node) : files_stay f f.
Proof. intros q H. exact H. Qed.

Lemma files_stay_insert (f : gmap string node) (p data : string) :
  files_stay f (<[p := File data]> f).
Proof.
  intros q H. unfold is_file in *.
  destruct (decide (p = q)) as [->|Hne].
  - rewrite lookup_insert_eq. reflexivity.
  - rewrite lookup_insert_ne by exact Hne. exact H.
Qed.

(** ** Strings *)

Lemma truthy_true (s : string) : Str.truthy s = true <-> s <> "".
Proof.
  unfold Str.truthy. destruct (String.eqb_spec s "") as [->|Hne]; simpl.
  - split; [discriminate | intros H; contradiction H; reflexivity].
  - split; [intros _; exact Hne | reflexivity].
Qed.

Lemma string_app_nonempty (a b : string) : a <> "" -> a +:+ b <> "".
Proof. destruct a; simpl; [intros H; contradiction | intros _; discriminate]. Qed.

Lemma replace_from_nonempty (old new : string) (s : string) :
  new <> "" -> s <> "" -> Str.replace_from old new 0 s <> "".
Proof.
  intros Hnew Hs. destruct s as [|c s]; [contradiction|]. cbn [Str.replace_from].
  destruct (Str.startswith (String c s) old).
  - apply string_app_nonempty. exact Hnew.
  - discriminate.
Qed.

Lemma temp_file_of_truthy (input_path : string) :
  Str.truthy input_path = true -> Str.truthy (temp_file_of input_path) = true.
Proof.
  rewrite !truthy_true. intros H. unfold temp_file_of, Str.replace.
  apply replace_from_nonempty; [discriminate | exact H].
Qed.

Lemma path_exists_truthy (f : gmap string node) (p : string) :
  path_exists f p = true -> Str.truthy p = true.
Proof. unfold path_exists. intros H. apply andb_true_iff in H. tauto. Qed.

Lemma is_file_exists (f : gmap string node) (p : string) :
  Str.truthy p = true -> is_file f p = true -> path_exists f p = true.
Proof.
  unfold path_exists, is_file. intros -> H. simpl.
  destruct (f !! p); [reflexivity | discriminate].
Qed.

Lemma path_not_exists (f : gmap string node) (p : string) :
  Str.truthy p = true -> path_exists f p = false -> f !! p = None.
Proof.
  unfold path_exists. intros -> H. simpl in H.
  destruct (f !! p); [discriminate | reflexivity].
Qed.

Lemma lookup_None_not_file (f : gmap string node) (p : string) :
  f !! p = None -> is_file f p = false.
Proof. unfold is_file. intros ->. reflexivity. Qed.

(** ** Slices, [rfind] and [os.path] *)

Lemma append_cons (c : ascii) (a b : string) :
  String c a +:+ b = String c (a +:+ b).
Proof. reflexivity. Qed.

Lemma append_nil_r (s : string) : s +:+ "" = s.
Proof.
  induction s as [|a s IH]; [reflexivity|]. rewrite append_cons, IH. reflexivity.
Qed.

Lemma take_drop (n : nat) (s : string) : Str.take n s +:+ Str.drop n s = s.
Proof.
  revert s. induction n as [|n IH]; intros s; [reflexivity|].
  destruct s as [|c s]; [reflexivity|].
  cbn [Str.take Str.drop]. rewrite append_cons, IH. reflexivity.
Qed.

Lemma drop_get (k : nat) (s : string) (c : ascii) :
  String.get k s = Some c -> Str.drop k s = String c (Str.drop (S k) s).
Proof.
  revert s. induction k as [|k IH]; intros s H; destruct s as [|a s];
    cbn in H; try discriminate.
  - inversion H. reflexivity.
  - cbn. apply IH. exact H.
Qed.

Lemma take_length (n : nat) (s : string) :
  (n <= String.length s)%nat -> String.length (Str.take n s) = n.
Proof.
  revert s. induction n as [|n IH]; intros s H; [reflexivity|].
  destruct s as [|a s]; cbn in *; [lia|]. rewrite IH; [reflexivity | lia].
Qed.

Lemma drop_take_last (k : nat) (s : string) (c : ascii) :
  String.get k s = Some c -> Str.drop k (Str.take (S k) s) = String c "".
Proof.
  revert s. induction k as [|k IH]; intros s H; destruct s as [|a s];
    cbn in H; try discriminate.
  - inversion H. reflexivity.
  - cbn. apply (IH s H).
Qed.

Lemma startswith_nil (s : string) : Str.startswith s "" = true.
Proof. destruct s; reflexivity. Qed.

Lemma startswith_char (a c : ascii) (s : string) :
  Str.startswith (String a s) (String c "") = Ascii.eqb a c.
Proof.
  unfold Str.startswith. cbn. destruct (ascii_dec c a) as [->|Hne].
  - rewrite Ascii.eqb_refl. fold (Str.startswith s ""). apply startswith_nil.
  - symmetry. apply Ascii.eqb_neq. congruence.
Qed.

Lemma contains_char_cons (a c : ascii) (s : string) :
  Str.contains (String a s) (String c "")
  = Ascii.eqb a c || Str.contains s (String c "").
Proof. cbn [Str.contains]. rewrite startswith_char. reflexivity. Qed.

Lemma contains_startswith (s p : string) :
  Str.contains s p = false -> Str.startswith s p = false.
Proof.
  destruct s; cbn [Str.contains]; intros H; apply orb_false_iff in H; tauto.
Qed.

(** [rfind] either finds no occurrence and returns the default, or returns
    the index of an occurrence after which there is no other. *)
Lemma rfind_from_spec (c : ascii) (s : string) (i last : Z) :
  (Str.contains s (String c "") = false /\ Str.rfind_from c s i last = last)
  \/
  (exists k : nat,
      (k < String.length s)%nat /\
      Str.rfind_from c s i last = i + Z.of_nat k /\
      String.get k s = Some c /\
      Str.contains (Str.drop (S k) s) (String c "") = false).
Proof.
  revert i last. induction s as [|a s IH]; intros i last.
  - left. split; reflexivity.
  - cbn [Str.rfind_from]. rewrite contains_char_cons.
    destruct (IH (i + 1) (if Ascii.eqb a c then i else last))
      as [[Hno Hr] | (k & Hk & Hr & Hg & Hd)].
    + destruct (Ascii.eqb a c) eqn:Eac.
      * right. exists 0%nat. cbn. apply Ascii.eqb_eq in Eac. subst a.
        repeat split; [lia | lia | exact Hno].
      * left. split; [exact Hno | exact Hr].
    + right. exists (S k). cbn [String.length Str.drop String.get].
      repeat split; [lia | lia | exact Hg | exact Hd].
Qed.

Lemma rfind_spec (s : string) (c : ascii) :
  (Str.contains s (String c "") = false /\ Str.rfind s c = -1)
  \/
  (exists k : nat,
      (k < String.length s)%nat /\
      Str.rfind s c = Z.of_nat k /\
      String.get k s = Some c /\
      Str.contains (Str.drop (S k) s) (String c "") = false).
Proof.
  unfold Str.rfind.
  destruct (rfind_from_spec c s 0 (-1)) as [H | (k & Hk & Hr & Hg & Hd)].
  - left. exact H.
  - right. exists k. rewrite Z.add_0_l in Hr. repeat split; assumption.
Qed.

(** The basename is the part of the path after its last separator. *)
Lemma basename_spec (p : string) :
  exists head,
    p = head +:+ OsPath.basename p /\
    (head = "" \/ Str.endswith head "/" = true) /\
    Str.contains (OsPath.basename p) "/" = false.
Proof.
  unfold OsPath.basename.
  destruct (rfind_spec p OsPath.sep) as [[Hno Hr] | (k & Hk & Hr & Hg & Hd)];
    rewrite Hr.
  - exists "". cbn. repeat split; [left; reflexivity | exact Hno].
  - replace (Z.to_nat (Z.of_nat k + 1)) with (S k) by lia.
    exists (Str.take (S k) p). split; [symmetry; apply take_drop|].
    split; [|exact Hd]. right. unfold Str.endswith.
    rewrite take_length by lia. cbn [String.length].
    replace (S k - 1)%nat with k by lia.
    rewrite (drop_take_last k p _ Hg). reflexivity.
Qed.

Lemma get_some_lt (k : nat) (s : string) :
  (k < String.length s)%nat -> exists c, String.get k s = Some c.
Proof.
  revert s. induction k as [|k IH]; intros s H; destruct s as [|a s];
    cbn in H; try lia.
  - exists a. reflexivity.
  - cbn. apply IH. lia.
Qed.

Lemma substring_one (k : nat) (s : string) (c : ascii) :
  String.get k s = Some c -> String.substring k 1 s = String c "".
Proof.
  revert s. induction k as [|k IH]; intros s H; destruct s as [|a s];
    cbn in H; try discriminate.
  - inversion H. cbn. destruct s; reflexivity.
  - cbn. apply IH. exact H.
Qed.

Lemma eqb_single (c d : ascii) :
  String.eqb (String c "") (String d "") = Ascii.eqb c d.
Proof. cbn. destruct (Ascii.eqb c d); reflexivity. Qed.

Lemma take_S_get (n k : nat) (s : string) (c : ascii) :
  String.get k s = Some c ->
  Str.take (S n) (Str.drop k s) = String c (Str.take n (Str.drop (S k) s)).
Proof. intros H. rewrite (drop_get k s c H). reflexivity. Qed.

(** The loop of [splitext] finds a character other than a dot exactly when
    the slice it scans is not made of dots. *)
Lemma splitext_scan_spec (p : string) (n i : nat) :
  (i + n <= String.length p)%nat ->
  OsPath.splitext_scan p i n = negb (all_dots (Str.take n (Str.drop i p))).
Proof.
  revert i. induction n as [|n IH]; intros i H; [reflexivity|].
  destruct (get_some_lt i p) as [c Hc]; [lia|].
  cbn [OsPath.splitext_scan]. rewrite (substring_one i p c Hc), eqb_single.
  rewrite (take_S_get n i p c Hc). cbn [all_dots].
  destruct (Ascii.eqb c OsPath.extsep); cbn [negb andb]; [|reflexivity].
  apply IH. lia.
Qed.

Lemma get_contains (k : nat) (s : string) (c : ascii) :
  String.get k s = Some c -> Str.contains s (String c "") = true.
Proof.
  revert s. induction k as [|k IH]; intros s H; destruct s as [|a s];
    cbn in H; try discriminate; rewrite contains_char_cons.
  - inversion H. rewrite Ascii.eqb_refl. reflexivity.
  - rewrite (IH s H). apply orb_true_r.
Qed.

Lemma rfind_absent (s : string) (c : ascii) :
  Str.contains s (String c "") = false -> Str.rfind s c = -1.
Proof.
  intros H. destruct (rfind_spec s c) as [[_ Hr] | (k & _ & _ & Hg & _)];
    [exact Hr|].
  apply get_contains in Hg. congruence.
Qed.

Lemma lstrip_dots_no_dot (s : string) :
  Str.contains s "." = false -> Str.contains (lstrip_dots s) "." = false.
Proof.
  induction s as [|a s IH]; intros H; [reflexivity|].
  pose proof H as H0. rewrite contains_char_cons in H0.
  apply orb_false_iff in H0. destruct H0 as [Ha Hs].
  cbn [lstrip_dots]. unfold OsPath.extsep. rewrite Ha. exact H.
Qed.

Lemma lstrip_dots_all_dots (a b : string) :
  all_dots a = true -> lstrip_dots (a +:+ b) = lstrip_dots b.
Proof.
  induction a as [|c a IH]; intros H; [reflexivity|].
  cbn [all_dots] in H. apply andb_true_iff in H. destruct H as [Hc Ha].
  rewrite append_cons. cbn [lstrip_dots]. rewrite Hc. apply IH, Ha.
Qed.

(** [os.path.splitext] on a file name without a separator. *)
Lemma splitext_splits_at_extension (name : string) :
  Str.contains name "/" = false ->
  splits_at_extension name (fst (OsPath.splitext name)) (snd (OsPath.splitext name)).
Proof.
  intros Hsep. unfold splits_at_extension, OsPath.splitext.
  rewrite (rfind_absent name OsPath.sep Hsep).
  destruct (rfind_spec name OsPath.extsep) as [[Hno Hr] | (k & Hk & Hr & Hg & Hd)];
    rewrite Hr.
  - cbn [Z.ltb Z.compare andb fst snd]. split; [symmetry; apply append_nil_r|].
    left. split; [reflexivity|]. apply lstrip_dots_no_dot, Hno.
  - replace (-1 <? Z.of_nat k) with true by (symmetry; apply Z.ltb_lt; lia).
    replace (Z.to_nat (-1 + 1)) with 0%nat by reflexivity.
    replace (Z.to_nat (Z.of_nat k - (-1 + 1))) with k by lia.
    rewrite Nat2Z.id, splitext_scan_spec by lia.
    cbn [Str.drop andb].
    destruct (all_dots (Str.take k name)) eqn:Edots; cbn [negb fst snd].
    + split; [symmetry; apply append_nil_r|]. left. split; [reflexivity|].
      rewrite <- (take_drop k name) at 1.
      rewrite (lstrip_dots_all_dots _ _ Edots), (drop_get k name _ Hg).
      cbn [lstrip_dots]. rewrite Ascii.eqb_refl.
      apply lstrip_dots_no_dot, Hd.
    + split; [symmetry; apply take_drop|]. right.
      rewrite (drop_get k name _ Hg). split; [apply startswith_char|].
      split; [exact Hd | exact Edots].
Qed.

Lemma contains_middle (a b : string) (c : ascii) :
  Str.contains (a +:+ String c b) (String c "") = true.
Proof.
  induction a as [|x a IH].
  - change ("" +:+ String c b) with (String c b).
    rewrite contains_char_cons, Ascii.eqb_refl. reflexivity.
  - rewrite append_cons, contains_char_cons, IH. apply orb_true_r.
Qed.

Lemma lstrip_dots_keeps_tail (a b : string) :
  all_dots a = false -> exists a', lstrip_dots (a +:+ b) = a' +:+ b.
Proof.
  induction a as [|x a IH]; intros H; [discriminate H|].
  cbn [all_dots] in H. rewrite append_cons. cbn [lstrip_dots].
  destruct (Ascii.eqb x OsPath.extsep); cbn [andb] in H.
  - apply IH, H.
  - exists (String x a). reflexivity.
Qed.

Lemma extension_shape (ext : string) :
  Str.startswith ext "." = true -> exists r, ext = String OsPath.extsep r.
Proof.
  destruct ext as [|c r]; [discriminate|].
  rewrite startswith_char. intros H. apply Ascii.eqb_eq in H. subst c.
  exists r. reflexivity.
Qed.

Lemma last_dot_unique (s1 s2 r1 r2 : string) :
  s1 +:+ String OsPath.extsep r1 = s2 +:+ String OsPath.extsep r2 ->
  Str.contains r1 "." = false -> Str.contains r2 "." = false ->
  s1 = s2 /\ r1 = r2.
Proof.
  revert s2. induction s1 as [|c s1 IH]; intros s2 H H1 H2;
    destruct s2 as [|c' s2]; rewrite ?append_cons in H.
  - inversion H. split; reflexivity.
  - change ("" +:+ String OsPath.extsep r1) with (String OsPath.extsep r1) in H.
    inversion H as [[Hc Hr]]. rewrite Hr, contains_middle in H1. discriminate H1.
  - change ("" +:+ String OsPath.extsep r2) with (String OsPath.extsep r2) in H.
    inversion H as [[Hc Hr]]. rewrite <- Hr, contains_middle in H2. discriminate H2.
  - inversion H as [[Hc Hr]]. destruct (IH s2 Hr H1 H2) as [-> ->].
    split; reflexivity.
Qed.

(** A file name is split at its extension in one way only. *)
Lemma splits_at_extension_unique (name s1 e1 s2 e2 : string) :
  splits_at_extension name s1 e1 -> splits_at_extension name s2 e2 ->
  s1 = s2 /\ e1 = e2.
Proof.
  intros [N1 [[E1 D1] | (P1 & T1 & A1)]] [N2 [[E2 D2] | (P2 & T2 & A2)]].
  - subst e1 e2. rewrite append_nil_r in N1, N2. split; congruence.
  - exfalso. destruct (extension_shape e2 P2) as [r ->].
    destruct (lstrip_dots_keeps_tail s2 (String OsPath.extsep r) A2) as [a Ha].
    rewrite N2, Ha, contains_middle in D1. discriminate D1.
  - exfalso. destruct (extension_shape e1 P1) as [r ->].
    destruct (lstrip_dots_keeps_tail s1 (String OsPath.extsep r) A1) as [a Ha].
    rewrite N1, Ha, contains_middle in D2. discriminate D2.
  - destruct (extension_shape e1 P1) as [r1 ->].
    destruct (extension_shape e2 P2) as [r2 ->].
    cbn [Str.drop] in T1, T2. rewrite N1 in N2.
    destruct (last_dot_unique _ _ _ _ N2 T1 T2) as [-> ->]. split; reflexivity.
Qed.

Lemma join_relative (a b : string) :
  Str.truthy a = true -> Str.startswith b "/" = false ->
  OsPath.join a b = a +:+ (if Str.endswith a "/" then "" else "/") +:+ b.
Proof.
  intros Ha Hb. unfold OsPath.join. rewrite Ha, Hb. cbn [negb orb].
  destruct (Str.endswith a "/"); reflexivity.
Qed.

Lemma startswith_head_only (c : ascii) (x y : string) (d : ascii) :
  Str.startswith (String c x) (String d "") = Str.startswith (String c y) (String d "").
Proof. rewrite !startswith_char. reflexivity. Qed.

(** A file name built from a prefix of a separator-free name does not
    start with a separator. *)
Lemma stem_svg_relative (stem ext : string) :
  Str.contains (stem +:+ ext) "/" = false ->
  Str.startswith (stem +:+ ".svg") "/" = false.
Proof.
  intros H. destruct stem as [|c stem]; [reflexivity|].
  apply contains_startswith in H. rewrite append_cons in *.
  rewrite (startswith_head_only c _ (stem +:+ ext)). exact H.
Qed.

(** ** Effects of the primitives *)

Section Effects.

Context {L : Libs}.

Lemma print_effect (line : string) (w w' : World) (r : exn + unit) :
  print line w = (w', r) ->
  r = inr tt /\ ext w w' [] /\ fs w' = fs w /\ stderr w' = stderr w.
Proof.
  unfold print. intros H. inversion H; subst; clear H. simpl.
  repeat split; try reflexivity. unfold ext. simpl. rewrite List.app_nil_r. reflexivity.
Qed.

Lemma os_path_exists_effect (p : string) (w w' : World) (r : exn + bool) :
  os_path_exists p w = (w', r) -> w' = w /\ r = inr (path_exists (fs w) p).
Proof. unfold os_path_exists. intros H. inversion H. split; reflexivity. Qed.

Lemma os_makedirs_effect (p : string) (b : bool) (w w' : World) (r : exn + unit) :
  os_makedirs p b w = (w', r) -> ext w w' [EvMakedirs p b].
Proof.
  unfold os_makedirs, ext. intros H.
  destruct (sys_makedirs p b (fs (log (EvMakedirs p b) w)));
    inversion H; subst; reflexivity.
Qed.

Lemma os_remove_effect (p : string) (w w' : World) (r : exn + unit) :
  os_remove p w = (w', r) ->
  ext w w' [EvRemove p] /\
  is_file (fs w') p = false /\
  (is_file (fs w) p = true -> fs w' !! p = None).
Proof.
  unfold os_remove, ext, is_file. intros H. simpl in H.
  destruct (fs w !! p) as [[data|]|] eqn:E; inversion H; subst; clear H; simpl.
  - rewrite lookup_delete_eq. repeat split; reflexivity.
  - rewrite E. repeat split; try reflexivity; discriminate.
  - rewrite E. repeat split; try reflexivity; discriminate.
Qed.

Lemma Image_open_effect (p : string) (w w' : World) (r : exn + Image) :
  Image_open p w = (w', r) ->
  ext w w' [EvOpen p] /\ fs w' = fs w /\
  (forall img, r = inr img -> is_file (fs w) p = true).
Proof.
  unfold Image_open, ext, is_file. intros H. simpl in H.
  destruct (fs w !! p) as [[data|]|] eqn:E; inversion H; subst; clear H; simpl;
    repeat split; try reflexivity; intros img; discriminate.
Qed.

Lemma remove_effect (img : Image) (w w' : World) (r : exn + Image) :
  remove img w = (w', r) -> ext w w' [EvRembg img] /\ fs w' = fs w.
Proof. unfold remove, ext. intros H. inversion H; subst. split; reflexivity. Qed.

Lemma pil_effect (op : pil_op) (img : Image) (w w' : World) (r : exn + Image) :
  pil op img w = (w', r) ->
  ext w w' [EvPil op img] /\ fs w' = fs w /\ r = pil_apply op img.
Proof. unfold pil, ext. intros H. inversion H; subst. repeat split; reflexivity. Qed.

Lemma Image_save_effect (img : Image) (p : string) (w w' : World) (r : exn + unit) :
  Image_save img p w = (w', r) ->
  ext w w' [EvSave img p] /\ files_stay (fs w) (fs w').
Proof.
  unfold Image_save, ext. intros H. cbn [fs log] in H.
  destruct (pil_encode img p) as [data|e [junk|]];
    try destruct (parent_ready (fs w) p);
    try destruct (fs w !! p) as [[d|]|];
    inversion H; subst; clear H; simpl;
    (split; [reflexivity | first [apply files_stay_insert | apply files_stay_refl]]).
Qed.

Lemma convert_image_to_svg_py_effect (src out : string) (params : Params)
    (w w' : World) (r : exn + unit) :
  convert_image_to_svg_py src out params w = (w', r) ->
  ext w w' [EvVtracer src out params] /\ files_stay (fs w) (fs w').
Proof.
  unfold convert_image_to_svg_py, ext. intros H. cbn [fs log] in H.
  destruct (fs w !! src) as [[data|]|];
    try destruct (vtracer_trace data params) as [e|svg];
    try destruct (parent_ready (fs w) out);
    try destruct (fs w !! out) as [[d|]|];
    inversion H; subst; clear H; simpl;
    (split; [reflexivity | first [apply files_stay_insert | apply files_stay_refl]]).
Qed.

End Effects.

(** ** The preprocessor *)

Section Preprocessor.

Context {L : Libs}.

Lemma new_events_log1 (w : World) (a : event) :
  new_events w (log a w) = [a].
Proof. apply new_events_of. reflexivity. Qed.

Lemma new_events_refl (w : World) : new_events w w = [].
Proof. apply new_events_of. rewrite List.app_nil_r. reflexivity. Qed.

Lemma new_events_log_more (w w' : World) (a : event) (evs : list event) :
  trace w' = trace w ++ evs -> trace (log a w') = trace w ++ (evs ++ [a]).
Proof. intros H. simpl. rewrite H, List.app_assoc. reflexivity. Qed.

(** What [preprocess_image] does, for each setting of its flags. *)
Lemma preprocess_image_chain (img : Image) (enhance_edges ultra_quality : bool)
    (w : World) :
  let chain :=
    norm_ops img ++
    (if enhance_edges then
       if ultra_quality
       then [Filter (GaussianBlur 0.5); Filter (UnsharpMask 2 150 3);
             Enhance Contrast 1.4; Enhance Color 1.1]
       else [Filter SHARPEN; Enhance Contrast 1.2]
     else []) in
  let w' := fst (preprocess_image img enhance_edges ultra_quality w) in
  let r := snd (preprocess_image img enhance_edges ultra_quality w) in
  (pil_ops (new_events w w'), r) = run_chain chain img
  /\ pil_only (new_events w w')
  /\ fs w' = fs w /\ stdout w' = stdout w /\ stderr w' = stderr w
  /\ trace w' = trace w ++ new_events w w'.
Proof.
  unfold preprocess_image, norm_ops, bind, ret, pil.
  destruct (String.eqb (mode img) "RGBA"), enhance_edges, ultra_quality;
    cbn [negb app run_chain fst snd];
    repeat
      (match goal with
       | |- context [pil_apply ?op ?i] => destruct (pil_apply op i) as [?e|?img]
       end; cbn [fst snd]);
    rewrite ?new_events_refl;
    repeat
      (match goal with
       | |- context [new_events ?w0 ?w1] =>
           let evs := fresh "evs" in
           let H := fresh "H" in
           evar (evs : list event);
           assert (H : trace w1 = trace w0 ++ evs)
             by (subst evs; repeat (apply new_events_log_more);
                 symmetry; apply List.app_nil_r);
           rewrite (new_events_of _ _ _ H); subst evs; clear H
       end);
    cbn [app pil_ops fs stdout stderr log];
    (split; [reflexivity|]);
    (split; [repeat constructor|]);
    repeat split; try reflexivity;
    cbn [trace log]; rewrite <- ?List.app_assoc; try reflexivity;
    symmetry; apply List.app_nil_r.
Qed.

End Preprocessor.

(** ** Symbolic execution of [convert_to_svg] *)

Section Conversion.

Context {L : Libs}.

Lemma preprocess_image_effect (img : Image) (enhance_edges ultra_quality : bool)
    (w w' : World) (r : exn + Image) :
  preprocess_image img enhance_edges ultra_quality w = (w', r) ->
  fs w' = fs w /\
  exists evs, ext w w' evs /\ pil_only evs /\
    (enhance_edges = false -> Forall (eq (Convert "RGBA")) (pil_ops evs)).
Proof.
  intros H.
  pose proof (preprocess_image_chain img enhance_edges ultra_quality w) as C.
  rewrite H in C. cbn [fst snd] in C.
  destruct C as (Hc & Hp & Hf & _ & _ & Ht).
  split; [exact Hf|]. exists (new_events w w').
  split; [exact Ht|]. split; [exact Hp|].
  intros ->. rewrite List.app_nil_r in Hc. unfold norm_ops in Hc.
  destruct (String.eqb (mode img) "RGBA"); cbn [run_chain] in Hc.
  - inversion Hc as [[Ho Hr]]. rewrite Ho. constructor.
  - destruct (pil_apply (Convert "RGBA") img); inversion Hc as [[Ho Hr]];
      rewrite Ho; repeat constructor.
Qed.

Ltac merge_ext :=
  repeat match goal with
    | H1 : ext ?a ?b _, H2 : ext ?b ?c _ |- _ =>
        let H := fresh "Hx" in
        pose proof (ext_trans _ _ _ _ _ H1 H2) as H; clear H1 H2
    end.

(** The term evaluation is stuck on: the innermost scrutinee. *)
Ltac head_scrut t :=
  lazymatch t with
  | match ?x with _ => _ end => head_scrut x
  | (if ?c then _ else _) _ => head_scrut c
  | _ => t
  end.

Local Opaque print os_path_exists os_makedirs os_remove Image_open remove
  preprocess_image Image_save convert_image_to_svg_py.

Ltac exec_head t :=
  let E := fresh "E" in
  lazymatch t with
  | print ?l ?w =>
      destruct t as [?w ?r] eqn:E; apply print_effect in E;
      destruct E as (-> & ? & ? & ?)
  | os_path_exists ?p ?w =>
      destruct t as [?w ?r] eqn:E;
      apply os_path_exists_effect in E; destruct E as (-> & ->)
  | os_makedirs ?p ?b ?w =>
      destruct t as [?w [?e|[]]] eqn:E; apply os_makedirs_effect in E
  | os_remove ?p ?w =>
      destruct t as [?w [?e|[]]] eqn:E;
      apply os_remove_effect in E; destruct E as (? & ? & ?)
  | Image_open ?p ?w =>
      destruct t as [?w [?e|?img]] eqn:E;
      apply Image_open_effect in E; destruct E as (? & ? & ?)
  | remove ?i ?w =>
      destruct t as [?w [?e|?img]] eqn:E;
      apply remove_effect in E; destruct E as (? & ?)
  | preprocess_image ?i ?a ?b ?w =>
      destruct t as [?w [?e|?img]] eqn:E;
      apply preprocess_image_effect in E; destruct E as (? & ?evs & ? & ? & ?)
  | Image_save ?i ?p ?w =>
      destruct t as [?w [?e|[]]] eqn:E;
      apply Image_save_effect in E; destruct E as (? & ?)
  | convert_image_to_svg_py ?s ?o ?p ?w =>
      destruct t as [?w [?e|[]]] eqn:E;
      apply convert_image_to_svg_py_effect in E; destruct E as (? & ?)
  | is_Exception ?e => destruct e; cbn [is_Exception] in *
  | negb ?b => destruct b eqn:E; cbn [negb] in *
  | Str.truthy ?s => destruct t eqn:E
  | path_exists ?f ?p => destruct t eqn:E
  end.

Ltac exec H :=
  unfold convert_to_svg, with_frame, try_finally, try_except, convert_try, prepare_processing_file,
    convert_except, convert_finally, bind, ret, raise, lift, get_local, set_local in H;
  cbn [fst snd] in H;
  repeat (lazymatch type of H with
          | ?lhs = _ => let t := head_scrut lhs in exec_head t
          end;
          cbn [fst snd] in H; merge_ext).

Ltac norm_fs :=
  repeat match goal with
    | H : fs ?a = fs ?b |- _ => rewrite H in *; clear H
    end;
  repeat match goal with
    | Hs : files_stay ?f ?g, Hf : is_file ?f ?q = true |- _ => apply Hs in Hf; clear Hs
    end.

Ltac saved_of_events :=
  rewrite ?saved_paths_app; cbn [saved_paths app];
  repeat match goal with
    | Hp : pil_only ?evs |- context [saved_paths ?evs] =>
        rewrite (pil_only_saved evs Hp)
    end;
  cbn [app].

(** Every run of [convert_to_svg] either saves no image, and then raises
    if staging was requested, or saves exactly one image, to the staged
    path, where no regular file is left at the end. *)
Lemma convert_to_svg_staging (input_path output_path : string)
    (remove_background : bool) (params : Params)
    (enhance_quality ultra_quality : bool) (w w' : World) (r : exn + unit) :
  convert_to_svg input_path output_path remove_background params enhance_quality
    ultra_quality w = (w', r) ->
  exists evs, ext w w' evs /\
    ((saved_paths evs = [] /\
      ((remove_background || enhance_quality) = true -> exists e, r = inl e))
     \/
     (saved_paths evs = [temp_file_of input_path] /\
      path_exists (fs w) input_path = true /\
      is_file (fs w') (temp_file_of input_path) = false /\
      (temp_file_of input_path = input_path -> fs w' !! input_path = None))).
Proof.
  intros H. destruct remove_background, enhance_quality.
  all: exec H.
  all: inversion H; subst; clear H.
  all: try (eexists; split; [apply ext_refl|]; left; split;
            [reflexivity | intros _; eexists; reflexivity]).
  all: eexists; (split; [eassumption|]).
  all: try (left; split; [saved_of_events; reflexivity |
                          first [intros _; eexists; reflexivity | discriminate]]).
  all: right; (split; [saved_of_events; reflexivity|]); (split; [reflexivity|]).
  all: try (exfalso;
            match goal with
            | Ht : Str.truthy (temp_file_of ?i) = false,
              He : path_exists _ ?i = true |- _ =>
                apply path_exists_truthy in He; apply temp_file_of_truthy in He;
                congruence
            end).
  all: repeat match goal with
         | Ho : forall img, inr ?i = inr img -> _ |- _ => specialize (Ho _ eq_refl)
         end.
  all: norm_fs.
  all: split;
    [ first [ assumption | apply lookup_None_not_file, path_not_exists; assumption ]
    | intros Heq; rewrite Heq in *;
      first [ auto; fail | apply path_not_exists; assumption ] ].
Qed.

Lemma rembg_calls_pil_only (evs : list event) :
  pil_only evs -> rembg_calls evs = 0%nat.
Proof. apply pil_only_rembg. Qed.

Ltac observe_events :=
  rewrite ?rembg_calls_app, ?pil_ops_app;
  repeat match goal with
    | Hp : pil_only ?evs |- context [rembg_calls ?evs] =>
        rewrite (pil_only_rembg evs Hp)
    end;
  cbn [rembg_calls List.filter is_rembg List.length pil_ops app Nat.add].

(** With [remove_background] off, a run never calls the background
    remover, and the only PIL call it can make is the conversion to
    RGBA. *)
Lemma convert_to_svg_keep_bg (input_path output_path : string) (params : Params)
    (enhance_quality ultra_quality : bool) (w w' : World) (r : exn + unit) :
  convert_to_svg input_path output_path false params enhance_quality
    ultra_quality w = (w', r) ->
  exists evs, ext w w' evs /\
    rembg_calls evs = 0%nat /\
    Forall (eq (Convert "RGBA")) (pil_ops evs).
Proof.
  intros H. destruct enhance_quality.
  all: exec H.
  all: inversion H; subst; clear H.
  all: try (eexists; split; [apply ext_refl|]; split; [reflexivity | constructor]).
  all: eexists; (split; [eassumption|]).
  all: repeat match goal with
         | Ho : false = false -> _ |- _ => specialize (Ho eq_refl)
         end.
  all: split; [observe_events; reflexivity |].
  all: rewrite ?pil_ops_app; cbn [pil_ops app]; rewrite ?List.app_nil_r;
    first [assumption | constructor].
Qed.

End Conversion.

(** ** The staged path *)

Lemma replace_from_absent (old new s : string) :
  Str.contains s old = false -> Str.replace_from old new 0 s = s.
Proof.
  induction s as [|c s IH]; intros H; [reflexivity|].
  cbn [Str.contains] in H. apply orb_false_iff in H. destruct H as [Hp Hc].
  cbn [Str.replace_from]. rewrite Hp, (IH Hc). reflexivity.
Qed.

(** Without an occurrence of [.png] the staged path is the input path. *)
Lemma temp_file_of_no_png (input_path : string) :
  Str.contains input_path ".png" = false -> temp_file_of input_path = input_path.
Proof. intros H. unfold temp_file_of, Str.replace. apply replace_from_absent, H. Qed.

(** ** Frames of the primitives *)

Lemma vtracer_calls_app (a b : list event) :
  vtracer_calls (a ++ b) = vtracer_calls a ++ vtracer_calls b.
Proof.
  induction a as [|ev a IH]; simpl; [reflexivity|].
  destruct ev; simpl; rewrite ?IH; reflexivity.
Qed.

Lemma removed_paths_app (a b : list event) :
  removed_paths (a ++ b) = removed_paths a ++ removed_paths b.
Proof.
  induction a as [|ev a IH]; simpl; [reflexivity|].
  destruct ev; simpl; rewrite ?IH; reflexivity.
Qed.

Lemma made_dirs_app (a b : list event) :
  made_dirs (a ++ b) = made_dirs a ++ made_dirs b.
Proof.
  induction a as [|ev a IH]; simpl; [reflexivity|].
  destruct ev; simpl; rewrite ?IH; reflexivity.
Qed.

Lemma pil_only_vtracer (evs : list event) : pil_only evs -> vtracer_calls evs = [].
Proof.
  induction 1 as [|ev evs Hev _ IH]; simpl; [reflexivity|].
  destruct ev; try contradiction. exact IH.
Qed.

Lemma pil_only_removed (evs : list event) : pil_only evs -> removed_paths evs = [].
Proof.
  induction 1 as [|ev evs Hev _ IH]; simpl; [reflexivity|].
  destruct ev; try contradiction. exact IH.
Qed.

Lemma pil_only_made_dirs (evs : list event) : pil_only evs -> made_dirs evs = [].
Proof.
  induction 1 as [|ev evs Hev _ IH]; simpl; [reflexivity|].
  destruct ev; try contradiction. exact IH.
Qed.

Lemma unchanged_but_refl (p : string) (f : gmap string node) : unchanged_but p f f.
Proof. intros q _. reflexivity. Qed.

Lemma unchanged_but_insert (p : string) (n : node) (f : gmap string node) :
  unchanged_but p f (<[p := n]> f).
Proof. intros q Hq. apply lookup_insert_ne. congruence. Qed.

Lemma unchanged_but_delete (p : string) (f : gmap string node) :
  unchanged_but p f (delete p f).
Proof. intros q Hq. apply lookup_delete_ne. congruence. Qed.

Section Frames.

Context {L : Libs}.

Lemma Image_save_frame (img : Image) (p : string) (w w' : World) (r : exn + unit) :
  Image_save img p w = (w', r) -> unchanged_but p (fs w) (fs w').
Proof.
  unfold Image_save. intros H. cbn [fs log] in H.
  destruct (pil_encode img p) as [data|e [junk|]];
    try destruct (parent_ready (fs w) p);
    try destruct (fs w !! p) as [[d|]|];
    inversion H; subst; clear H; simpl;
    first [apply unchanged_but_insert | apply unchanged_but_refl].
Qed.

Lemma convert_image_to_svg_py_frame (src out : string) (params : Params)
    (w w' : World) (r : exn + unit) :
  convert_image_to_svg_py src out params w = (w', r) ->
  unchanged_but out (fs w) (fs w') /\
  (r = inr tt -> is_file (fs w') out = true /\ is_file (fs w) src = true).
Proof.
  unfold convert_image_to_svg_py, is_file. intros H. cbn [fs log] in H.
  destruct (fs w !! src) as [[data|]|] eqn:Esrc;
    try destruct (vtracer_trace data params) as [e|svg];
    try destruct (parent_ready (fs w) out);
    try destruct (fs w !! out) as [[d|]|];
    inversion H; subst; clear H; simpl;
    (split; [first [apply unchanged_but_insert | apply unchanged_but_refl]
            | try discriminate]).
  all: intros _; rewrite lookup_insert_eq; split; reflexivity.
Qed.

Lemma os_remove_frame (p : string) (w w' : World) (r : exn + unit) :
  os_remove p w = (w', r) -> unchanged_but p (fs w) (fs w').
Proof.
  unfold os_remove. intros H. simpl in H.
  destruct (fs w !! p) as [[data|]|]; inversion H; subst; clear H; simpl;
    first [apply unchanged_but_delete | apply unchanged_but_refl].
Qed.

End Frames.

(** ** A second symbolic execution, with frames *)

Ltac chain_ext :=
  repeat match goal with
    | H1 : ext ?a ?b _, H2 : ext ?b ?c _ |- _ =>
        let H := fresh "Hx" in
        pose proof (ext_trans _ _ _ _ _ H1 H2) as H; clear H1 H2
    end.

Ltac stuck_on t :=
  lazymatch t with
  | match ?x with _ => _ end => stuck_on x
  | (if ?c then _ else _) _ => stuck_on c
  | _ => t
  end.

Ltac run_head t :=
  let E := fresh "E" in
  lazymatch t with
  | print ?l ?w =>
      destruct t as [?w ?r] eqn:E; apply print_effect in E;
      destruct E as (-> & ? & ? & ?)
  | os_path_exists ?p ?w =>
      destruct t as [?w ?r] eqn:E;
      apply os_path_exists_effect in E; destruct E as (-> & ->)
  | os_makedirs ?p ?b ?w =>
      destruct t as [?w [?e|[]]] eqn:E; apply os_makedirs_effect in E
  | os_remove ?p ?w =>
      destruct t as [?w [?e|[]]] eqn:E;
      pose proof (os_remove_frame _ _ _ _ E);
      apply os_remove_effect in E; destruct E as (? & ? & ?)
  | Image_open ?p ?w =>
      destruct t as [?w [?e|?img]] eqn:E;
      apply Image_open_effect in E; destruct E as (? & ? & ?)
  | remove ?i ?w =>
      destruct t as [?w [?e|?img]] eqn:E;
      apply remove_effect in E; destruct E as (? & ?)
  | preprocess_image ?i ?a ?b ?w =>
      destruct t as [?w [?e|?img]] eqn:E;
      apply preprocess_image_effect in E; destruct E as (? & ?evs & ? & ? & ?)
  | Image_save ?i ?p ?w =>
      destruct t as [?w [?e|[]]] eqn:E;
      pose proof (Image_save_frame _ _ _ _ _ E);
      apply Image_save_effect in E; destruct E as (? & ?)
  | convert_image_to_svg_py ?s ?o ?p ?w =>
      destruct t as [?w [?e|[]]] eqn:E;
      pose proof (convert_image_to_svg_py_frame _ _ _ _ _ _ E) as [? ?];
      apply convert_image_to_svg_py_effect in E; destruct E as (? & ?)
  | is_Exception ?e => destruct e; cbn [is_Exception] in *
  | negb ?b => destruct b eqn:E; cbn [negb] in *
  | Str.truthy ?s => destruct t eqn:E
  | path_exists ?f ?p => destruct t eqn:E
  end.

Ltac run_convert H :=
  unfold convert_to_svg, with_frame, try_finally, try_except, convert_try, prepare_processing_file,
    convert_except, convert_finally, bind, ret, raise, lift, get_local, set_local in H;
  cbn [fst snd] in H;
  repeat (lazymatch type of H with
          | ?lhs = _ => let t := stuck_on lhs in run_head t
          end;
          cbn [fst snd] in H; chain_ext).

Ltac rewrite_fs :=
  repeat match goal with
    | H : fs ?a = fs ?b |- _ => rewrite H in *; clear H
    end.

Ltac observe_calls :=
  rewrite ?vtracer_calls_app, ?removed_paths_app, ?made_dirs_app, ?saved_paths_app;
  cbn [vtracer_calls removed_paths made_dirs saved_paths app];
  repeat match goal with
    | Hp : pil_only ?evs |- _ =>
        rewrite ?(pil_only_vtracer evs Hp), ?(pil_only_removed evs Hp),
          ?(pil_only_made_dirs evs Hp), ?(pil_only_saved evs Hp)
    end;
  cbn [app].

Section Frame.

Context {L : Libs}.

Local Opaque print os_path_exists os_makedirs os_remove Image_open remove
  preprocess_image Image_save convert_image_to_svg_py.

(** When the output directory needs no creation, a run calls no
    [os.makedirs] and changes the filesystem at the staged path and at the
    output path only. *)
Lemma convert_to_svg_frame (input_path output_path : string)
    (remove_background : bool) (params : Params)
    (enhance_quality ultra_quality : bool) (w w' : World) (r : exn + unit) :
  convert_to_svg input_path output_path remove_background params enhance_quality
    ultra_quality w = (w', r) ->
  output_dir_ready (fs w) output_path = true ->
  (forall q, q <> temp_file_of input_path -> q <> output_path ->
             fs w' !! q = fs w !! q) /\
  exists evs, ext w w' evs /\ made_dirs evs = [].
Proof.
  intros H Hready. unfold output_dir_ready in Hready.
  destruct remove_background, enhance_quality.
  all: run_convert H.
  all: inversion H; subst; clear H.
  all: cbn [negb orb] in Hready; try discriminate Hready.
  all: rewrite_fs.
  all: split;
    [ intros q Hq1 Hq2;
      repeat match goal with
        | Hu : unchanged_but _ _ ?f |- context [?f !! q] =>
            rewrite (Hu q) by assumption
        end; reflexivity
    | ].
  all: first
    [ eexists; split; [eassumption | observe_calls; reflexivity]
    | exists []; split; [apply ext_refl | reflexivity] ].
Qed.

(** The calls a run makes: at most one call of the tracing engine, with the
    output path and the parameters as given and the staged path (or, when
    nothing is staged, the input path) as source, and exactly one on a
    normal return; at most one removal, of the staged path after
    [Image.save] was called on it; at most one directory creation, of the directory of
    the output path.  A normal return leaves a regular file at the output
    path unless that is the staged path. *)
Lemma convert_to_svg_calls (input_path output_path : string)
    (remove_background : bool) (params : Params)
    (enhance_quality ultra_quality : bool) (w w' : World) (r : exn + unit) :
  convert_to_svg input_path output_path remove_background params enhance_quality
    ultra_quality w = (w', r) ->
  let src := if remove_background || enhance_quality
             then temp_file_of input_path else input_path in
  (r = inr tt -> output_path <> temp_file_of input_path ->
   is_file (fs w') output_path = true) /\
  exists evs, ext w w' evs /\
    (vtracer_calls evs = [] \/ vtracer_calls evs = [(src, output_path, params)]) /\
    (r = inr tt -> vtracer_calls evs = [(src, output_path, params)]) /\
    (removed_paths evs = [] \/
     (removed_paths evs = [temp_file_of input_path] /\
      saved_paths evs = [temp_file_of input_path])) /\
    (made_dirs evs = [] \/ made_dirs evs = [OsPath.dirname output_path]).
Proof.
  intros H src. subst src. destruct remove_background, enhance_quality.
  all: run_convert H.
  all: inversion H; subst; clear H.
  all: cbn [orb].
  all: split;
    [ intros Hr Hne; try discriminate Hr;
      rewrite_fs;
      repeat match goal with
        | Hs : inr tt = inr tt -> _ /\ _ |- _ =>
            destruct (Hs eq_refl) as [? ?]; clear Hs
        end;
      first
        [ assumption
        | match goal with
          | Hu : unchanged_but _ _ ?f |- is_file ?f ?o = true =>
              unfold is_file in *; rewrite (Hu o) by assumption; assumption
          end ]
    | ].
  all: try (exists []; split; [apply ext_refl|]; cbn;
            repeat split; first [left; reflexivity | discriminate]).
  all: eexists; (split; [eassumption|]).
  all: repeat split.
  all: try (intros Hr; try discriminate Hr).
  all: first
    [ observe_calls; reflexivity
    | left; observe_calls; reflexivity
    | right; observe_calls; first [reflexivity | split; reflexivity] ].
Qed.

End Frame.

(** ** Exact outcomes of the primitives *)

Section Steps.

Context {L : Libs}.

Lemma Image_open_file (p data : string) (w : World) :
  fs w !! p = Some (File data) ->
  Image_open p w = (log (EvOpen p) w, pil_decode data).
Proof. intros H. unfold Image_open. cbn [fs log]. rewrite H. reflexivity. Qed.

Lemma Image_save_encoded (img : Image) (p png : string) (w : World) :
  pil_encode img p = Encoded png ->
  parent_ready (fs w) p = true ->
  fs w !! p <> Some Dir ->
  Image_save img p w
  = (set_fs (<[p := File png]> (fs w)) (log (EvSave img p) w), inr tt).
Proof.
  intros He Hp Hd. unfold Image_save. cbn [fs log]. rewrite He, Hp. cbn [negb].
  destruct (fs w !! p) as [[d|]|]; [reflexivity | contradiction | reflexivity].
Qed.




Lemma convert_image_to_svg_py_raises (src out data : string) (params : Params)
    (e : exn) (w : World) :
  fs w !! src = Some (File data) ->
  vtracer_trace data params = inl e ->
  convert_image_to_svg_py src out params w
  = (log (EvVtracer src out params) w, inl e).
Proof.
  intros Hs Ht. unfold convert_image_to_svg_py. cbn [fs log]. rewrite Hs, Ht.
  reflexivity.
Qed.

Lemma os_remove_file (p data : string) (w : World) :
  fs w !! p = Some (File data) ->
  os_remove p w = (set_fs (delete p (fs w)) (log (EvRemove p) w), inr tt).
Proof. intros H. unfold os_remove. cbn [fs log]. rewrite H. reflexivity. Qed.

Lemma preprocess_image_result (img : Image) (enhance_edges ultra_quality : bool)
    (w : World) :
  exists wp,
    preprocess_image img enhance_edges ultra_quality w
    = (wp, snd (run_chain
                  (norm_ops img ++
                   (if enhance_edges then edge_chain ultra_quality else []))
                  img))
    /\ fs wp = fs w /\ stdout wp = stdout w /\ stderr wp = stderr w.
Proof.
  destruct (preprocess_image_chain img enhance_edges ultra_quality w)
    as (Hc & _ & Hf & Ho & He & _).
  exists (fst (preprocess_image img enhance_edges ultra_quality w)).
  split; [|repeat split; assumption].
  unfold edge_chain.
  destruct enhance_edges, ultra_quality; cbn [app] in *;
    rewrite <- Hc; cbn [snd]; apply surjective_pairing.
Qed.

(** With the input file and the output directory in place, the checks
    that open [convert_to_svg] pass and leave the world as it is. *)
Lemma convert_to_svg_ready (input_path output_path : string)
    (remove_background : bool) (params : Params)
    (enhance_quality ultra_quality : bool) (w : World) :
  path_exists (fs w) input_path = true ->
  output_dir_ready (fs w) output_path = true ->
  convert_to_svg input_path output_path remove_background params enhance_quality
    ultra_quality w
  = with_frame None
      (try_finally
         (try_except
            (convert_try input_path output_path remove_background params
               enhance_quality ultra_quality)
            convert_except)
         convert_finally) w.
Proof.
  intros Hex Hready. unfold output_dir_ready in Hready.
  unfold convert_to_svg, bind, os_path_exists, ret. rewrite Hex. cbn [negb].
  destruct (Str.truthy (OsPath.dirname output_path)); cbn [negb orb] in Hready.
  - rewrite Hready. reflexivity.
  - reflexivity.
Qed.

End Steps.

(** Rewriting along an exact run. *)

Ltac world_simpl := cbn [fst snd fs stdout stderr trace set_fs log] in *.

Ltac use_preprocess :=
  lazymatch goal with
  | |- context [preprocess_image ?i ?a ?b ?w0] =>
      let wp := fresh "wp" in
      let Hp := fresh "Hp" in
      destruct (preprocess_image_result i a b w0) as (wp & Hp & ? & ? & ?);
      rewrite Hp; world_simpl
  | _ => idtac
  end.

Ltac fs_facts :=
  repeat match goal with
    | H : fs ?a = fs ?b |- _ => rewrite H in *; clear H
    end.

(** ** Exact runs through the staging of the working image *)

Section KeepBackground.

Context {L : Libs}.

Lemma preprocess_image_plain (img : Image) (ultra_quality : bool)
    (w w' : World) (r : exn + Image) :
  preprocess_image img false ultra_quality w = (w', r) ->
  fs w' = fs w /\
  ext w w' (if String.eqb (mode img) "RGBA" then []
            else [EvPil (Convert "RGBA") img]) /\
  r = (if String.eqb (mode img) "RGBA" then inr img
       else pil_apply (Convert "RGBA") img).
Proof.
  unfold preprocess_image, bind, ret, pil, ext. intros H.
  destruct (String.eqb (mode img) "RGBA"); cbn [negb fst snd] in H.
  - inversion H; subst. rewrite List.app_nil_r. repeat split.
  - destruct (pil_apply (Convert "RGBA") img); inversion H; subst; repeat split.
Qed.

Local Opaque print os_path_exists os_makedirs os_remove Image_open remove
  preprocess_image Image_save convert_image_to_svg_py.

Lemma keep_bg_image_events (input_path output_path : string) (params : Params)
    (ultra_quality : bool) (w w' : World) (r : exn + unit)
    (data : string) (img : Image) :
  convert_to_svg input_path output_path false params true ultra_quality w = (w', r) ->
  fs w !! input_path = Some (File data) ->
  input_path <> "" ->
  output_dir_ready (fs w) output_path = true ->
  pil_decode data = inr img ->
  image_events (new_events w w')
  = if String.eqb (mode img) "RGBA"
    then [EvSave img (temp_file_of input_path)]
    else match pil_apply (Convert "RGBA") img with
         | inr img' => [EvPil (Convert "RGBA") img;
                        EvSave img' (temp_file_of input_path)]
         | inl _ => [EvPil (Convert "RGBA") img]
         end.
Proof.
  intros H Hin Hne Hready Hdec.
  assert (Hex : path_exists (fs w) input_path = true).
  { unfold path_exists. rewrite Hin. apply truthy_true in Hne. rewrite Hne. reflexivity. }
  rewrite (convert_to_svg_ready _ _ _ _ _ _ _ Hex Hready) in H.
  unfold with_frame, try_finally, try_except, convert_try, prepare_processing_file,
    bind, lift, ret, set_local, get_local in H; cbn [fst snd] in H.
  rewrite (Image_open_file _ _ _ Hin), Hdec in H. cbn [fst snd] in H.
  assert (Hopen : ext w (log (EvOpen input_path) w) [EvOpen input_path])
    by reflexivity.
  destruct (preprocess_image img false ultra_quality (log (EvOpen input_path) w))
    as [wp rp] eqn:Ep.
  apply preprocess_image_plain in Ep. destruct Ep as (Hfp & Hxp & ->).
  destruct (String.eqb (mode img) "RGBA");
    [|destruct (pil_apply (Convert "RGBA") img) as [e|img']].
  all: run_convert H.
  all: inversion H; subst; clear H.
  all: match goal with
       | Hx : ext ?w0 ?w1 ?evs |- context [new_events ?w0 ?w1] =>
           rewrite (new_events_of _ _ _ Hx)
       end.
  all: reflexivity.
Qed.

End KeepBackground.

Section Staging.

Context {L : Libs}.

Local Opaque Image_open Image_save convert_image_to_svg_py os_remove
  preprocess_image os_makedirs.



End Staging.

Section Unstaged.

Context {L : Libs}.

Local Opaque print os_path_exists os_makedirs os_remove Image_open remove
  preprocess_image Image_save convert_image_to_svg_py.


End Unstaged.

(** ** Claims about the pipeline *)

Section PipelineClaims.

Context {L : Libs}.

(** C1. Whenever a call of [convert_to_svg] stages an image, no staged
    file is left at the staged path when the call returns, whatever the
    outcome [r] of the call: a normal return or an exception raised by
    any of the steps. *)
Theorem staged_file_deleted_on_every_exit (input_path output_path : string)
    (remove_background : bool) (params : Params)
    (enhance_quality ultra_quality : bool) (w w' : World) (r : exn + unit) :
  convert_to_svg input_path output_path remove_background params enhance_quality
    ultra_quality w = (w', r) ->
  In (temp_file_of input_path) (saved_paths (new_events w w')) ->
  is_file (fs w') (temp_file_of input_path) = false.
Proof.
  intros Hrun Hstaged.
  destruct (convert_to_svg_staging _ _ _ _ _ _ _ _ _ Hrun)
    as (evs & Hext & [[Hnone _] | (_ & _ & Hgone & _)]).
  - rewrite (new_events_of _ _ _ Hext), Hnone in Hstaged. destruct Hstaged.
  - exact Hgone.
Qed.

(** C2, as amended. With [remove_background] off and quality enhancement
    on, the preprocessor runs with [enhance_edges] off: the background
    remover is not called and the only PIL call on the working image is
    its conversion to RGBA, so neither sharpening nor a contrast or colour
    adjustment is applied; a call that returns normally has saved one
    image, to the staged path, and has handed the staged path to the
    tracing engine.  When the input file decodes and the directory of the
    output path is there already, the calls on the image are exactly
    these, in this order: the conversion to RGBA unless the image is RGBA
    already, then the save of the normalised image to the staged path;
    the save is not reached when the conversion raises. *)
Theorem keep_bg_enhancement_only_normalises (input_path output_path : string)
    (params : Params) (ultra_quality : bool) (w : World) :
  let run := convert_to_svg input_path output_path false params true
               ultra_quality w in
  let new := new_events w (fst run) in
  rembg_calls new = 0%nat /\
  Forall (eq (Convert "RGBA")) (pil_ops new) /\
  (snd run = inr tt ->
   saved_paths new = [temp_file_of input_path] /\
   vtracer_calls new = [(temp_file_of input_path, output_path, params)]) /\
  (forall (data : string) (img : Image),
      fs w !! input_path = Some (File data) ->
      input_path <> "" ->
      output_dir_ready (fs w) output_path = true ->
      pil_decode data = inr img ->
      image_events new
      = if String.eqb (mode img) "RGBA"
        then [EvSave img (temp_file_of input_path)]
        else match pil_apply (Convert "RGBA") img with
             | inr img' => [EvPil (Convert "RGBA") img;
                            EvSave img' (temp_file_of input_path)]
             | inl _ => [EvPil (Convert "RGBA") img]
             end).
Proof.
  intros run new.
  assert (Hrun : convert_to_svg input_path output_path false params true
                   ultra_quality w = (fst run, snd run))
    by apply surjective_pairing.
  destruct (convert_to_svg_keep_bg _ _ _ _ _ _ _ _ Hrun) as (evs & Hext & Hr & Hp).
  split; [subst new; rewrite (new_events_of _ _ _ Hext); exact Hr|].
  split; [subst new; rewrite (new_events_of _ _ _ Hext); exact Hp|].
  split.
  - intros Hok.
    destruct (convert_to_svg_staging _ _ _ _ _ _ _ _ _ Hrun)
      as (evs1 & Hext1 & [[_ Hfail] | (Hsaved & _)]).
    + destruct (Hfail eq_refl) as [e He]. congruence.
    + destruct (convert_to_svg_calls _ _ _ _ _ _ _ _ _ Hrun)
        as (_ & evs2 & Hext2 & _ & Hcall & _).
      subst new. split.
      * rewrite (new_events_of _ _ _ Hext1). exact Hsaved.
      * rewrite (new_events_of _ _ _ Hext2). apply Hcall, Hok.
  - intros data img Hin Hne Hready Hdec. subst new.
    apply (keep_bg_image_events _ _ _ _ _ _ _ _ _ Hrun Hin Hne Hready Hdec).
Qed.


(** C5. When the input path does not exist, [convert_to_svg] raises
    [FileNotFoundError] at once: the world it returns is the world it was
    given, so no library was called, nothing was printed, and neither an
    output file nor an output directory was created. *)
Theorem missing_input_fails_before_any_step (input_path output_path : string)
    (remove_background : bool) (params : Params)
    (enhance_quality ultra_quality : bool) (w : World) :
  path_exists (fs w) input_path = false ->
  convert_to_svg input_path output_path remove_background params enhance_quality
    ultra_quality w
  = (w, inl (Exn "FileNotFoundError" ("Input file not found: " +:+ input_path))).
Proof.
  intros H. unfold convert_to_svg, bind, os_path_exists. rewrite H. reflexivity.
Qed.

(** C6. With [remove_background] off, a call of [convert_to_svg] makes no
    call of the background remover, whatever the other options and the
    outcome. *)
Theorem keep_bg_never_calls_rembg (input_path output_path : string)
    (params : Params) (enhance_quality ultra_quality : bool) (w : World) :
  rembg_calls
    (new_events w
       (fst (convert_to_svg input_path output_path false params enhance_quality
               ultra_quality w))) = 0%nat.
Proof.
  destruct (convert_to_svg_keep_bg input_path output_path params enhance_quality
              ultra_quality w
              (fst (convert_to_svg input_path output_path false params
                      enhance_quality ultra_quality w))
              (snd (convert_to_svg input_path output_path false params
                      enhance_quality ultra_quality w)))
    as (evs & Hext & Hr & _).
  - apply surjective_pairing.
  - rewrite (new_events_of _ _ _ Hext). exact Hr.
Qed.

(** C7. With [enhance_edges] off, [preprocess_image] returns the
    RGBA-normalised input for either value of [ultra_quality]: the image
    itself when it is RGBA already, its conversion to RGBA otherwise; no
    filter or enhancement is called. *)
Theorem preprocess_without_edges_is_normalisation (img : Image)
    (ultra_quality : bool) (w : World) :
  let w' := fst (preprocess_image img false ultra_quality w) in
  let r := snd (preprocess_image img false ultra_quality w) in
  (pil_ops (new_events w w'), r) = run_chain (norm_ops img) img /\
  r = (if String.eqb (mode img) "RGBA" then inr img
       else pil_apply (Convert "RGBA") img) /\
  Forall (eq (Convert "RGBA")) (pil_ops (new_events w w')) /\
  fs w' = fs w.
Proof.
  intros w' r.
  destruct (preprocess_image_chain img false ultra_quality w)
    as (Hc & _ & Hf & _).
  fold w' r in Hc, Hf. rewrite List.app_nil_r in Hc.
  set (ops := pil_ops (new_events w w')) in *. clearbody ops r.
  unfold norm_ops in *.
  destruct (String.eqb (mode img) "RGBA"); cbn [run_chain] in *.
  - inversion Hc; subst. repeat split; [constructor | exact Hf].
  - destruct (pil_apply (Convert "RGBA") img); inversion Hc; subst;
      repeat split; try exact Hf; repeat constructor.
Qed.

(** C8. With [enhance_edges] on, [preprocess_image] calls, after the
    normalisation to RGBA and in this order: with [ultra_quality] a
    Gaussian blur of radius 0.5, an unsharp mask of radius 2, percent 150
    and threshold 3, a contrast enhancement by 1.4 and a colour
    enhancement by 1.1; without it the sharpen filter and a contrast
    enhancement by 1.2.  Each call receives the result of the one before,
    and the first one that raises ends the chain. *)
Theorem preprocess_with_edges_chain (img : Image) (w : World) :
  let ultra := preprocess_image img true true w in
  let standard := preprocess_image img true false w in
  (pil_ops (new_events w (fst ultra)), snd ultra)
  = run_chain
      (norm_ops img ++
       [Filter (GaussianBlur 0.5); Filter (UnsharpMask 2 150 3);
        Enhance Contrast 1.4; Enhance Color 1.1]) img
  /\
  (pil_ops (new_events w (fst standard)), snd standard)
  = run_chain (norm_ops img ++ [Filter SHARPEN; Enhance Contrast 1.2]) img.
Proof.
  intros ultra standard. split.
  - apply (preprocess_image_chain img true true w).
  - apply (preprocess_image_chain img true false w).
Qed.

(** C10. When neither the output path nor [--output-dir] is given, [main]
    writes the usage error to the error stream and exits with status 1;
    the filesystem and the trace of library calls are untouched. *)
Theorem missing_output_spec_is_usage_error (args : Args) (w : World) :
  arg_output args = None ->
  arg_output_dir args = None ->
  main args w
  = (mkWorld (fs w) (stdout w)
       (stderr w ++ ["Error: Either output path or --output-dir must be specified"])
       (trace w),
     inl (SystemExit 1))
  /\ exit_status (snd (main args w)) = 1.
Proof.
  intros Ho Hd. unfold main, resolve_output_path, bind, eprint, sys_exit, raise.
  rewrite Ho, Hd. split; reflexivity.
Qed.

End PipelineClaims.

(** ** Claims about the command surface and the staged path *)

Section CommandSurface.

Context {L : Libs}.

(** C9. With a non-empty [--output-dir d], the output path is the
    basename of the input (the part after its last separator), with its
    extension replaced by [.svg], joined to [d] with one separator unless
    [d] ends with one.  The extension is the one of [os.path.splitext]:
    everything from the last dot of the basename to its end, ignoring
    leading dots, possibly empty; [splits_at_extension_unique] shows that
    this fixes the stem.  The path is produced whenever the directory
    could be ensured; otherwise the error of [os.makedirs] is raised. *)
Theorem output_dir_resolves_to_basename_svg (args : Args) (d : string) (w : World) :
  arg_output_dir args = Some d ->
  Str.truthy d = true ->
  let name := OsPath.basename (arg_input args) in
  let stem := fst (OsPath.splitext name) in
  let ext := snd (OsPath.splitext name) in
  let path := d +:+ (if Str.endswith d "/" then "" else "/") +:+ stem +:+ ".svg" in
  (exists head, arg_input args = head +:+ name /\
                (head = "" \/ Str.endswith head "/" = true)) /\
  Str.contains name "/" = false /\
  splits_at_extension name stem ext /\
  resolve_output_path args w
  = match os_makedirs d true w with
    | (w1, inr _) => (w1, inr path)
    | (w1, inl e) => (w1, inl e)
    end.
Proof.
  intros Hd Ht name stem ext path.
  destruct (basename_spec (arg_input args)) as (head & Hsplit & Hhead & Hname).
  pose proof (splitext_splits_at_extension _ Hname) as Hext.
  fold name in Hsplit, Hname, Hext. fold stem ext in Hext.
  split; [exists head; split; assumption|].
  split; [exact Hname|]. split; [exact Hext|].
  unfold resolve_output_path, bind, ret. rewrite Hd, Ht.
  destruct (os_makedirs d true w) as [w1 [e|[]]]; [reflexivity|].
  fold name. fold stem. rewrite join_relative.
  - reflexivity.
  - exact Ht.
  - apply (stem_svg_relative stem ext). destruct Hext as [<- _]. exact Hname.
Qed.

End CommandSurface.

Lemma startswith_png_cut (c : ascii) (st : string) :
  Str.startswith (String c st +:+ ".png") ".png"
  = Str.startswith (String c st +:+ ".pn") ".png".
Proof.
  unfold Str.startswith.
  destruct st as [|c1 [|c2 [|c3 st]]]; rewrite ?append_cons;
    change ("" +:+ ".png") with ".png"; change ("" +:+ ".pn") with ".pn";
    cbn [String.prefix];
    repeat match goal with
      | |- context [ascii_dec ?a ?b] => destruct (ascii_dec a b)
      end; try reflexivity; try congruence.
  fold (Str.startswith (st +:+ ".png") ""). fold (Str.startswith (st +:+ ".pn") "").
  rewrite !startswith_nil. reflexivity.
Qed.

(** Where the only occurrence of [.png] is the suffix, the code's
    replacement is the suffix substitution. *)
Lemma temp_file_of_suffix_only (stem : string) :
  Str.contains (stem +:+ ".pn") ".png" = false ->
  temp_file_of (stem +:+ ".png") = stem +:+ "_temp.png".
Proof.
  unfold temp_file_of, Str.replace.
  induction stem as [|c stem IH]; intros H; [reflexivity|].
  rewrite append_cons in H. cbn [Str.contains] in H.
  apply orb_false_iff in H. destruct H as [Hp Hc].
  rewrite <- append_cons, <- startswith_png_cut in Hp.
  rewrite !append_cons in *. cbn [Str.replace_from].
  rewrite Hp, (IH Hc). reflexivity.
Qed.

Lemma length_append (a b : string) :
  String.length (a +:+ b) = (String.length a + String.length b)%nat.
Proof.
  induction a as [|c a IH]; [reflexivity|].
  rewrite append_cons. cbn [String.length]. rewrite IH. reflexivity.
Qed.

Lemma drop_append (a b : string) : Str.drop (String.length a) (a +:+ b) = b.
Proof.
  induction a as [|c a IH]; [reflexivity|]. rewrite append_cons. exact IH.
Qed.

Lemma take_append (a b : string) : Str.take (String.length a) (a +:+ b) = a.
Proof.
  induction a as [|c a IH]; [reflexivity|].
  rewrite append_cons. cbn [String.length Str.take]. rewrite IH. reflexivity.
Qed.

Lemma staged_path_by_suffix_png (stem : string) :
  staged_path_by_suffix (stem +:+ ".png") = stem +:+ "_temp.png".
Proof.
  unfold staged_path_by_suffix, Str.endswith.
  rewrite length_append. cbn [String.length].
  replace (String.length stem + 4 - 4)%nat with (String.length stem) by lia.
  rewrite drop_append, take_append.
  replace (4 <=? String.length stem + 4)%nat with true
    by (symmetry; apply Nat.leb_le; lia).
  reflexivity.
Qed.

(** On such paths the code computes the staged path of the specification. *)
Lemma temp_file_of_agrees_on_single_suffix (stem : string) :
  Str.contains (stem +:+ ".pn") ".png" = false ->
  temp_file_of (stem +:+ ".png") = staged_path_by_suffix (stem +:+ ".png").
Proof.
  intros H. rewrite staged_path_by_suffix_png. apply temp_file_of_suffix_only, H.
Qed.

(** C3. The staged path of [icons.png/logo.png]: the code replaces both
    occurrences of [.png], the suffix substitution of the specification
    only the last one. *)
Theorem staged_path_replaces_every_occurrence :
  temp_file_of "icons.png/logo.png" = "icons_temp.png/logo_temp.png" /\
  staged_path_by_suffix "icons.png/logo.png" = "icons.png/logo_temp.png" /\
  temp_file_of "icons.png/logo.png" <> staged_path_by_suffix "icons.png/logo.png".
Proof. repeat split. vm_compute. discriminate. Qed.

(** ** The claims at concrete inputs *)

(** C1 on a run whose tracing engine raises after the image was staged. *)
Lemma staged_file_deleted_witness :
  In (temp_file_of "logo.png")
     (saved_paths (new_events (Fake.world_with "logo.png") (fst Run.tracer_raises)))
  /\ snd Run.tracer_raises = inl (Exn "RuntimeError" "tracing failed")
  /\ is_file (fs (fst Run.tracer_raises)) (temp_file_of "logo.png") = false.
Proof.
  split; [vm_compute; left; reflexivity|].
  split; [vm_compute; reflexivity|].
  apply (staged_file_deleted_on_every_exit (L := Fake.libs_failing_tracer)
           "logo.png" "logo.svg" true Fake.params true true
           (Fake.world_with "logo.png") (fst Run.tracer_raises)
           (snd Run.tracer_raises)).
  - apply surjective_pairing.
  - vm_compute. left. reflexivity.
Defined.

(** C2 as stated fails on a run that keeps the background of an RGB image:
    the one PIL call is the conversion to RGBA, not a contrast
    adjustment. *)
Lemma keep_bg_applies_no_contrast :
  pil_ops (new_events (Fake.world_with "logo.png") (fst Run.keep_bg_enhanced))
  = [Convert "RGBA"]
  /\ ~ contrast_adjustment_only
       (pil_ops (new_events (Fake.world_with "logo.png") (fst Run.keep_bg_enhanced))).
Proof.
  assert (H : pil_ops (new_events (Fake.world_with "logo.png")
                         (fst Run.keep_bg_enhanced)) = [Convert "RGBA"])
    by (vm_compute; reflexivity).
  split; [exact H|]. rewrite H. intros [_ Hall].
  inversion Hall as [|op ops [factor Hop] _]. discriminate Hop.
Qed.

(** C2 as amended on [logo.png] with [--keep-bg]: the RGB image is
    converted to RGBA and the result is saved to [logo_temp.png]. *)
Lemma keep_bg_enhancement_witness :
  image_events (new_events (Fake.world_with "logo.png") (fst Run.keep_bg_enhanced))
  = [EvPil (Convert "RGBA") (mkImage "RGB" (1, 1) [6]);
     EvSave (mkImage "RGBA" (1, 1) [6]) "logo_temp.png"] /\
  vtracer_calls (new_events (Fake.world_with "logo.png") (fst Run.keep_bg_enhanced))
  = [("logo_temp.png", "logo.svg", Fake.params)].
Proof.
  destruct (keep_bg_enhancement_only_normalises (L := Fake.libs)
              "logo.png" "logo.svg" Fake.params false (Fake.world_with "logo.png"))
    as (_ & _ & Hok & H).
  unfold Run.keep_bg_enhanced. split.
  - rewrite (H "raster" (mkImage "RGB" (1, 1) [6])).
    + reflexivity.
    + reflexivity.
    + discriminate.
    + reflexivity.
    + reflexivity.
  - destruct Hok as [_ Hcall]; [vm_compute; reflexivity|]. exact Hcall.
Defined.



(** C5 in a world without the input file. *)
Lemma missing_input_witness :
  convert_to_svg (L := Fake.libs) "logo.png" "out/logo.svg" true Fake.params
    true false Run.empty_world
  = (Run.empty_world,
     inl (Exn "FileNotFoundError" ("Input file not found: " +:+ "logo.png"))).
Proof.
  apply (missing_input_fails_before_any_step (L := Fake.libs)).
  vm_compute. reflexivity.
Defined.

(** C9 on [logo.png] with [--output-dir out/]: the output path is
    [out/logo.svg]; of [pics/archive.tar.gz] only the last extension is
    replaced, and the leading dot of [.hidden] starts no extension. *)
Lemma output_dir_witness :
  snd (resolve_output_path (L := Fake.libs) Run.args_output_dir
         (Fake.world_with "logo.png"))
  = inr "out/logo.svg" /\
  snd (resolve_output_path (L := Fake.libs)
         (mkArgs "pics/archive.tar.gz" None (Some "out") false false false
            Fake.params) Run.empty_world)
  = inr "out/archive.tar.svg" /\
  snd (resolve_output_path (L := Fake.libs)
         (mkArgs ".hidden" None (Some "out") false false false Fake.params)
         Run.empty_world)
  = inr "out/.hidden.svg".
Proof.
  split; [|split].
  - destruct (output_dir_resolves_to_basename_svg (L := Fake.libs)
                Run.args_output_dir "out/" (Fake.world_with "logo.png"))
      as (_ & _ & _ & H).
    + reflexivity.
    + reflexivity.
    + rewrite H. vm_compute. reflexivity.
  - destruct (output_dir_resolves_to_basename_svg (L := Fake.libs)
                (mkArgs "pics/archive.tar.gz" None (Some "out") false false false
                   Fake.params) "out" Run.empty_world)
      as (_ & _ & _ & H).
    + reflexivity.
    + reflexivity.
    + rewrite H. vm_compute. reflexivity.
  - destruct (output_dir_resolves_to_basename_svg (L := Fake.libs)
                (mkArgs ".hidden" None (Some "out") false false false Fake.params)
                "out" Run.empty_world)
      as (_ & _ & _ & H).
    + reflexivity.
    + reflexivity.
    + rewrite H. vm_compute. reflexivity.
Defined.

(** C10 on a command line with the input only. *)
Lemma missing_output_spec_witness :
  exit_status (snd (main (L := Fake.libs) Run.args_no_output
                      (Fake.world_with "logo.png"))) = 1.
Proof.
  apply (missing_output_spec_is_usage_error (L := Fake.libs)); reflexivity.
Defined.

(** * Further properties of the pipeline *)

(** ** End-to-end runs *)

Section EndToEnd.
Context {L : Libs}.

Local Opaque Image_open Image_save convert_image_to_svg_py os_remove
  preprocess_image os_makedirs.



(** X2. The same conversion with a tracing engine that raises [e] on the
    staged image, the directory of the output path being there:
    [convert_to_svg] raises that very [e] after the staged file was removed;
    the line [Error during conversion: ...] is printed when [e] is an
    [Exception] and not otherwise, as the [except] clause is then passed
    by; the error stream is untouched. *)
Theorem tracer_error_is_reraised_after_cleanup (input_path output_path : string)
    (remove_background : bool) (params : Params)
    (enhance_quality ultra_quality : bool) (w : World)
    (data png : string) (e : exn) (img img1 img2 : Image) :
  (remove_background || enhance_quality) = true ->
  fs w !! input_path = Some (File data) ->
  input_path <> "" ->
  output_dir_ready (fs w) output_path = true ->
  parent_ready (fs w) (temp_file_of input_path) = true ->
  pil_decode data = inr img ->
  (if remove_background then rembg_remove img else inr img) = inr img1 ->
  snd (run_chain
         (working_chain remove_background enhance_quality ultra_quality img1) img1)
  = inr img2 ->
  pil_encode img2 (temp_file_of input_path) = Encoded png ->
  fs w !! temp_file_of input_path <> Some Dir ->
  vtracer_trace png params = inl e ->
  let run := convert_to_svg input_path output_path remove_background params
               enhance_quality ultra_quality w in
  snd run = inl e /\
  fs (fst run) !! temp_file_of input_path = None /\
  stdout (fst run)
  = stdout w ++
    (if remove_background
     then ["Removing background from " +:+ input_path +:+ "..."] else []) ++
    ["Converting " +:+ temp_file_of input_path +:+ " to SVG..."] ++
    (if is_Exception e then ["Error during conversion: " +:+ exn_str e] else []) /\
  stderr (fst run) = stderr w.
Proof.
  intros Hflags Hin Hne Hready Hpt Hdec Hbg Hpre Henc Htd Htr run. subst run.
  assert (Hex : path_exists (fs w) input_path = true).
  { unfold path_exists. rewrite Hin. apply truthy_true in Hne. rewrite Hne. reflexivity. }
  assert (Htt : Str.truthy (temp_file_of input_path) = true).
  { apply temp_file_of_truthy, truthy_true, Hne. }
  rewrite (convert_to_svg_ready _ _ _ _ _ _ _ Hex Hready).
  unfold working_chain in Hpre.
  destruct remove_background, enhance_quality; try discriminate Hflags;
    cbn beta iota in Hpre.
  all: unfold with_frame, try_finally, try_except, convert_try,
    prepare_processing_file, bind, lift, ret, set_local, get_local; cbn [fst snd].
  all: rewrite (Image_open_file _ _ _ Hin), Hdec; cbn [fst snd print remove].
  all: try rewrite Hbg.
  all: try (injection Hbg as <-).
  all: try (progress cbn [run_chain snd] in Hpre; injection Hpre as <-).
  all: use_preprocess.
  all: try rewrite Hpre.
  all: world_simpl.
  all: rewrite (Image_save_encoded _ _ _ _ Henc)
    by (world_simpl; fs_facts; assumption).
  all: world_simpl.
  all: rewrite (convert_image_to_svg_py_raises _ _ png _ e);
    world_simpl;
    [ | rewrite lookup_insert_eq; reflexivity | exact Htr ].
  all: world_simpl.
  all: unfold convert_except, convert_finally, bind, get_local, lift, os_path_exists,
    ret, raise, path_exists, print.
  all: destruct (is_Exception e); world_simpl.
  all: rewrite Htt; world_simpl; cbn [andb]; rewrite lookup_insert_eq;
    cbn [andb fst snd].
  all: rewrite (os_remove_file _ png) by (world_simpl; apply lookup_insert_eq).
  all: world_simpl.
  all: repeat match goal with
         | H : stdout _ = _ |- _ => rewrite H
         | H : stderr _ = _ |- _ => rewrite H
         end.
  all: rewrite <- ?List.app_assoc; cbn [app]; rewrite ?List.app_nil_r.
  all: split; [reflexivity|].
  all: split; [apply lookup_delete_eq|].
  all: split; reflexivity.
Qed.

(** X3. When the directory of the output path is there already (or the
    output path has no directory part) and [Image.open] raises an
    [Exception] on the input file, [convert_to_svg] re-raises that
    exception for every setting of the options, also when neither
    background removal nor enhancement needs the image: the filesystem is
    untouched, the one library call is [Image.open], and the error line is
    printed. *)
Theorem decode_error_is_reraised (input_path output_path : string)
    (remove_background : bool) (params : Params)
    (enhance_quality ultra_quality : bool) (w : World)
    (data cls msg : string) :
  fs w !! input_path = Some (File data) ->
  input_path <> "" ->
  output_dir_ready (fs w) output_path = true ->
  pil_decode data = inl (Exn cls msg) ->
  convert_to_svg input_path output_path remove_background params enhance_quality
    ultra_quality w
  = (mkWorld (fs w) (stdout w ++ ["Error during conversion: " +:+ msg]) (stderr w)
       (trace w ++ [EvOpen input_path]),
     inl (Exn cls msg)).
Proof.
  intros Hin Hne Hready Hdec.
  assert (Hex : path_exists (fs w) input_path = true).
  { unfold path_exists. rewrite Hin. apply truthy_true in Hne. rewrite Hne. reflexivity. }
  rewrite (convert_to_svg_ready _ _ _ _ _ _ _ Hex Hready).
  unfold with_frame, try_finally, try_except, convert_try, prepare_processing_file, bind, lift, ret,
    set_local, get_local; cbn [fst snd].
  rewrite (Image_open_file _ _ _ Hin), Hdec. cbn [fst snd is_Exception].
  unfold convert_except, convert_finally, bind, get_local, lift, ret, raise, print.
  world_simpl. cbn [exn_str]. reflexivity.
Qed.


End EndToEnd.

(** ** The staged path and the input path *)

Lemma replace_png_length_ge (s : string) (k : nat) :
  (String.length s <= String.length (Str.replace_from ".png" "_temp.png" k s) + k)%nat.
Proof.
  revert k. induction s as [|c s IH]; intros k; [cbn; lia|].
  cbn [Str.replace_from]. destruct k as [|k].
  - destruct (Str.startswith (String c s) ".png").
    + rewrite length_append. cbn [String.length Nat.sub].
      specialize (IH 3%nat). lia.
    + cbn [String.length]. specialize (IH 0%nat). lia.
  - cbn [String.length]. specialize (IH k). lia.
Qed.

Lemma replace_png_length_gt (s : string) :
  Str.contains s ".png" = true ->
  (String.length s < String.length (Str.replace_from ".png" "_temp.png" 0 s))%nat.
Proof.
  induction s as [|c s IH]; intros H; [discriminate H|].
  cbn [Str.contains] in H. cbn [Str.replace_from].
  destruct (Str.startswith (String c s) ".png").
  - rewrite length_append. cbn [String.length Nat.sub].
    pose proof (replace_png_length_ge s 3). lia.
  - cbn [orb] in H. cbn [String.length]. specialize (IH H). lia.
Qed.

Lemma temp_file_of_fixed_no_png (input_path : string) :
  temp_file_of input_path = input_path -> Str.contains input_path ".png" = false.
Proof.
  intros Heq. destruct (Str.contains input_path ".png") eqn:E; [|reflexivity].
  pose proof (replace_png_length_gt _ E) as Hlt.
  unfold temp_file_of, Str.replace in Heq. rewrite Heq in Hlt. lia.
Qed.

(** X12. The staged path is the input path itself exactly when the input
    path contains no [.png]: with an occurrence the staged path is longer
    than the input path, hence another file. *)
Theorem staged_path_is_input_iff_no_png (input_path : string) :
  temp_file_of input_path = input_path <-> Str.contains input_path ".png" = false.
Proof.
  split; [apply temp_file_of_fixed_no_png | apply temp_file_of_no_png].
Qed.

(** X13. For a path [stem.png] in which [.png] occurs only as the suffix,
    the staged path is [stem_temp.png], a path other than the input. *)
Theorem single_suffix_staged_path (stem : string) :
  Str.contains (stem +:+ ".pn") ".png" = false ->
  temp_file_of (stem +:+ ".png") = stem +:+ "_temp.png" /\
  temp_file_of (stem +:+ ".png") <> stem +:+ ".png".
Proof.
  intros H. rewrite (temp_file_of_suffix_only _ H). split; [reflexivity|].
  intros Heq. apply (f_equal String.length) in Heq.
  rewrite !length_append in Heq. cbn [String.length] in Heq. lia.
Qed.

(** ** What a conversion touches *)

Section Touches.

Context {L : Libs}.

Lemma convert_to_svg_missing_input (input_path output_path : string)
    (remove_background : bool) (params : Params)
    (enhance_quality ultra_quality : bool) (w : World) :
  path_exists (fs w) input_path = false ->
  convert_to_svg input_path output_path remove_background params enhance_quality
    ultra_quality w
  = (w, inl (Exn "FileNotFoundError" ("Input file not found: " +:+ input_path))).
Proof.
  intros H. unfold convert_to_svg, bind, os_path_exists. rewrite H. reflexivity.
Qed.

(** X7. A normal return of [convert_to_svg] leaves a regular file at the
    output path, provided the last component of the output path differs
    from the last component of the staged path, so that the two name
    different directory entries. *)
Theorem success_leaves_output_file (input_path output_path : string)
    (remove_background : bool) (params : Params)
    (enhance_quality ultra_quality : bool) (w w' : World) :
  convert_to_svg input_path output_path remove_background params enhance_quality
    ultra_quality w = (w', inr tt) ->
  OsPath.basename output_path <> OsPath.basename (temp_file_of input_path) ->
  is_file (fs w') output_path = true.
Proof.
  intros Hrun Hne.
  destruct (convert_to_svg_calls _ _ _ _ _ _ _ _ _ Hrun) as [Hout _].
  apply Hout; [reflexivity | congruence].
Qed.

(** X8. When the output path is the staged path and an image is staged, a
    normal return of [convert_to_svg] leaves no file at the output path:
    the cleanup removes what the tracing engine wrote. *)
Theorem output_at_staged_path_is_lost (input_path : string)
    (remove_background : bool) (params : Params)
    (enhance_quality ultra_quality : bool) (w w' : World) :
  (remove_background || enhance_quality) = true ->
  convert_to_svg input_path (temp_file_of input_path) remove_background params
    enhance_quality ultra_quality w = (w', inr tt) ->
  is_file (fs w') (temp_file_of input_path) = false.
Proof.
  intros Hflags Hrun.
  destruct (convert_to_svg_staging _ _ _ _ _ _ _ _ _ Hrun)
    as (evs & _ & [[_ Hraise] | (_ & _ & Hgone & _)]).
  - destruct (Hraise Hflags) as [e He]. discriminate He.
  - exact Hgone.
Qed.

(** X9. The tracing engine is called at most once in a conversion, with
    the output path and the parameter set exactly as given to
    [convert_to_svg] and with the staged path as its source when background
    removal or enhancement is on, the input path otherwise; on a normal
    return it was called exactly once. *)
Theorem tracer_called_with_given_parameters (input_path output_path : string)
    (remove_background : bool) (params : Params)
    (enhance_quality ultra_quality : bool) (w w' : World) (r : exn + unit) :
  convert_to_svg input_path output_path remove_background params enhance_quality
    ultra_quality w = (w', r) ->
  let src := if remove_background || enhance_quality
             then temp_file_of input_path else input_path in
  (vtracer_calls (new_events w w') = [] \/
   vtracer_calls (new_events w w') = [(src, output_path, params)]) /\
  (r = inr tt -> vtracer_calls (new_events w w') = [(src, output_path, params)]).
Proof.
  intros Hrun src.
  destruct (convert_to_svg_calls _ _ _ _ _ _ _ _ _ Hrun)
    as (_ & evs & Hext & Hv & Hok & _).
  rewrite (new_events_of _ _ _ Hext). split; assumption.
Qed.

(** X10. [os.remove] is called at most once in a conversion, only on the
    staged path, and only in a run that called [Image.save] on the staged
    path, whether or not that call wrote the file: no other path is ever
    removed. *)
Theorem only_staged_path_is_removed (input_path output_path : string)
    (remove_background : bool) (params : Params)
    (enhance_quality ultra_quality : bool) (w w' : World) (r : exn + unit) :
  convert_to_svg input_path output_path remove_background params enhance_quality
    ultra_quality w = (w', r) ->
  removed_paths (new_events w w') = [] \/
  (removed_paths (new_events w w') = [temp_file_of input_path] /\
   saved_paths (new_events w w') = [temp_file_of input_path]).
Proof.
  intros Hrun.
  destruct (convert_to_svg_calls _ _ _ _ _ _ _ _ _ Hrun)
    as (_ & evs & Hext & _ & _ & Hrm & _).
  rewrite (new_events_of _ _ _ Hext). exact Hrm.
Qed.

(** X11. [os.makedirs] is called at most once in a conversion, on the
    directory of the output path, and not at all when that directory exists
    already or the output path has no directory part. *)
Theorem output_directory_created_on_demand (input_path output_path : string)
    (remove_background : bool) (params : Params)
    (enhance_quality ultra_quality : bool) (w w' : World) (r : exn + unit) :
  convert_to_svg input_path output_path remove_background params enhance_quality
    ultra_quality w = (w', r) ->
  (made_dirs (new_events w w') = [] \/
   made_dirs (new_events w w') = [OsPath.dirname output_path]) /\
  (output_dir_ready (fs w) output_path = true -> made_dirs (new_events w w') = []).
Proof.
  intros Hrun. split.
  - destruct (convert_to_svg_calls _ _ _ _ _ _ _ _ _ Hrun)
      as (_ & evs & Hext & _ & _ & _ & Hmk).
    rewrite (new_events_of _ _ _ Hext). exact Hmk.
  - intros Hready.
    destruct (convert_to_svg_frame _ _ _ _ _ _ _ _ _ Hrun Hready)
      as (_ & evs & Hext & Hmk).
    rewrite (new_events_of _ _ _ Hext). exact Hmk.
Qed.

(** ** The command surface on a missing input *)


(** X15. [main] with [--output-dir] creates the output directory before
    the input is looked at: when the input does not exist, [os.makedirs]
    has been called on the directory all the same, and the process then
    exits with status 1 and the not-found message on the error stream. *)
Theorem main_creates_output_dir_before_input_check (args : Args) (d : string)
    (w w1 : World) :
  arg_output_dir args = Some d ->
  d <> "" ->
  os_makedirs d true w = (w1, inr tt) ->
  path_exists (fs w1) (arg_input args) = false ->
  main args w
  = (mkWorld (fs w1) (stdout w1)
       (stderr w1 ++ ["Error: Input file not found: " +:+ arg_input args])
       (trace w1),
     inl (SystemExit 1))
  /\ trace w1 = trace w ++ [EvMakedirs d true].
Proof.
  intros Hd Hne Hmk Hex. apply truthy_true in Hne.
  split; [|exact (os_makedirs_effect _ _ _ _ _ Hmk)].
  unfold main, resolve_output_path, bind, ret. rewrite Hd, Hne, Hmk.
  unfold try_except.
  rewrite (convert_to_svg_missing_input (arg_input args) _
             (negb (arg_keep_bg args)) (arg_params args)
             (negb (arg_no_enhance args)) (arg_ultra_quality args) w1 Hex).
  reflexivity.
Qed.

End Touches.

(** ** The further properties at concrete inputs *)


Lemma tracer_error_witness :
  snd Run.tracer_raises = inl (Exn "RuntimeError" "tracing failed") /\
  fs (fst Run.tracer_raises) !! "logo_temp.png" = None.
Proof.
  unfold Run.tracer_raises.
  destruct (tracer_error_is_reraised_after_cleanup (L := Fake.libs_failing_tracer)
              "logo.png" "logo.svg" true Fake.params true true
              (Fake.world_with "logo.png") "raster" "PNG:RGBA"
              (Exn "RuntimeError" "tracing failed")
              (mkImage "RGB" (1, 1) [6]) (mkImage "RGBA" (1, 1) [6])
              (mkImage "RGBA" (1, 1) [2; 2; 1; 1; 6]))
    as (Hr & Hf & _);
    try (vm_compute; reflexivity); try (vm_compute; discriminate).
  split; [exact Hr | exact Hf].
Defined.

Lemma decode_error_witness :
  snd (convert_to_svg (L := Run2.libs_failing_decoder) "logo.png" "logo.svg" false
         Fake.params false false (Fake.world_with "logo.png"))
  = inl (Exn "UnidentifiedImageError" "cannot identify image file").
Proof.
  rewrite (decode_error_is_reraised (L := Run2.libs_failing_decoder)
             "logo.png" "logo.svg" false Fake.params false false
             (Fake.world_with "logo.png") "raster"
             "UnidentifiedImageError" "cannot identify image file");
    try (vm_compute; reflexivity); try (vm_compute; discriminate).
Defined.


Lemma success_leaves_output_witness :
  is_file (fs (fst Run2.default_run)) "logo.svg" = true.
Proof.
  apply (success_leaves_output_file (L := Fake.libs)
           "logo.png" "logo.svg" true Fake.params true false
           (Fake.world_with "logo.png") (fst Run2.default_run)).
  - vm_compute. reflexivity.
  - vm_compute. discriminate.
Defined.

Lemma output_at_staged_path_witness :
  snd Run2.output_is_staged = inr tt /\
  is_file (fs (fst Run2.output_is_staged)) (temp_file_of "logo.png") = false.
Proof.
  split; [vm_compute; reflexivity|].
  apply (output_at_staged_path_is_lost (L := Fake.libs)
           "logo.png" true Fake.params true false (Fake.world_with "logo.png")
           (fst Run2.output_is_staged)).
  - reflexivity.
  - vm_compute. reflexivity.
Defined.

Lemma tracer_parameters_witness :
  vtracer_calls (new_events (Fake.world_with "logo.png") (fst Run2.default_run))
  = [(temp_file_of "logo.png", "logo.svg", Fake.params)].
Proof.
  apply (tracer_called_with_given_parameters (L := Fake.libs)
           "logo.png" "logo.svg" true Fake.params true false
           (Fake.world_with "logo.png") (fst Run2.default_run)
           (snd Run2.default_run)).
  - apply surjective_pairing.
  - vm_compute. reflexivity.
Defined.

Lemma only_staged_path_removed_witness :
  removed_paths (new_events (Fake.world_with "logo.png") (fst Run2.default_run)) = []
  \/ (removed_paths (new_events (Fake.world_with "logo.png") (fst Run2.default_run))
      = [temp_file_of "logo.png"] /\
      saved_paths (new_events (Fake.world_with "logo.png") (fst Run2.default_run))
      = [temp_file_of "logo.png"]).
Proof.
  apply (only_staged_path_is_removed (L := Fake.libs)
           "logo.png" "logo.svg" true Fake.params true false
           (Fake.world_with "logo.png") (fst Run2.default_run)
           (snd Run2.default_run)).
  apply surjective_pairing.
Defined.

Lemma output_directory_witness :
  made_dirs (new_events (Fake.world_with "logo.png") (fst Run2.default_run)) = [].
Proof.
  apply (output_directory_created_on_demand (L := Fake.libs)
           "logo.png" "logo.svg" true Fake.params true false
           (Fake.world_with "logo.png") (fst Run2.default_run)
           (snd Run2.default_run)).
  - apply surjective_pairing.
  - vm_compute. reflexivity.
Defined.

Lemma single_suffix_witness :
  temp_file_of ("dir/logo" +:+ ".png") = "dir/logo" +:+ "_temp.png" /\
  temp_file_of ("dir/logo" +:+ ".png") <> "dir/logo" +:+ ".png".
Proof. apply (single_suffix_staged_path "dir/logo"). vm_compute. reflexivity. Defined.


Lemma main_output_dir_witness :
  fs (fst (main (L := Fake.libs) Run2.args_dir_missing_input Run.empty_world))
    !! "out" = Some Dir
  /\ exit_status
       (snd (main (L := Fake.libs) Run2.args_dir_missing_input Run.empty_world)) = 1.
Proof.
  destruct (main_creates_output_dir_before_input_check (L := Fake.libs)
              Run2.args_dir_missing_input "out" Run.empty_world
              Run2.world_with_out_dir) as [Hm _];
    try (vm_compute; reflexivity); try discriminate.
  rewrite Hm. split; vm_compute; reflexivity.
Defined.

